(** * Guest stay accounts: a shallow embedding of the API, the read model
      and the command-handling protocol.

    Sources embedded here:
    - [src/guestStayAccounts/guestStayDetails.ts] (read model, [evolve]);
    - [src/guestStayAccounts/api/api.ts] (the five routes and
      [parseGuestStayAccountId]);
    - [src/index.ts] and the end-to-end test for the wiring.

    A TypeScript [number] is an IEEE 754 binary64 value: amounts and
    balances are [PrimFloat.float], with the kernel's own rounding.  A
    [Date] is its time value, milliseconds since the epoch, in [Z]. *)

From Stdlib Require Import ZArith List String Ascii Floats Lia Bool.
From stdpp Require Import base option list gmap strings pretty.

Local Open Scope string_scope.
Local Open Scope Z_scope.

(** ** Numbers and dates *)

Definition number : Type := float.
Definition Date : Type := Z.

(** The strict equality [===] of two numbers. *)
Definition strictEq (a b : number) : bool := PrimFloat.eqb a b.

(** ** Errors, results and the helpers imported from the framework *)

Module Emmett.

(** The errors the framework throws: a rejected input, a violated
    business rule, a stream that is not at the expected version. *)
Inductive Error : Type :=
| ValidationError (message : string)
| IllegalStateError (message : string)
| ConcurrencyError (expected actual : Z).

Inductive Result (A : Type) : Type :=
| Ok (value : A)
| Throw (error : Error).

Arguments Ok {A} value.
Arguments Throw {A} error.

Definition bind {A B : Type} (r : Result A) (k : A -> Result B) : Result B :=
  match r with
  | Ok a => k a
  | Throw e => Throw e
  end.

(** Modelled from the spec: [assertNotEmptyString] of the framework
    (identifiers must be non-empty).  An optional parameter that is
    absent is [None]. *)
Definition assertNotEmptyString (value : option string) : Result string :=
  match value with
  | Some (String c s) => Ok (String c s)
  | Some EmptyString | None => Throw (ValidationError "NOT_A_NONEMPTY_STRING")
  end.

(** Modelled from the spec: what the positive-number assertion of the
    framework accepts, as the spec words it: a positive finite number. *)
Definition isPositiveFinite (value : number) : bool :=
  PrimFloat.ltb 0%float value && PrimFloat.ltb value infinity.

(** Modelled from the spec: [assertPositiveNumber] of the framework: the
    value itself when it is a positive finite number, a validation error
    otherwise. *)
Definition assertPositiveNumber (value : number) : Result number :=
  if isPositiveFinite value then Ok value
  else Throw (ValidationError "NOT_A_POSITIVE_NUMBER").

(** *** The calendar day and its text encoding

    [formatDateToUtcYYYYMMDD] and [parseDateFromUtcYYYYMMDD] belong to
    the framework.  The stay date is a calendar day (UTC, proleptic
    Gregorian) written with a four-digit year, a two-digit month and a
    two-digit day. *)

Definition msPerDay : Z := 86400000.
Definition daysPerEra : Z := 146097.
Definition epochShift : Z := 719468.

(** Day of a 400-year era (counted from March 1st) to year of era,
    month and day of month. *)
Definition civilOfDoe (doe : Z) : Z * Z * Z :=
  let yoe := (doe - doe / 1460 + doe / 36524 - doe / 146096) / 365 in
  let doy := doe - (365 * yoe + yoe / 4 - yoe / 100) in
  let mp := (5 * doy + 2) / 153 in
  let d := doy - (153 * mp + 2) / 5 + 1 in
  let m := if mp <? 10 then mp + 3 else mp - 9 in
  (yoe, m, d).

Definition doeOfCivil (yoe m d : Z) : Z :=
  let mp := if 2 <? m then m - 3 else m + 9 in
  let doy := (153 * mp + 2) / 5 + d - 1 in
  yoe * 365 + yoe / 4 - yoe / 100 + doy.

(** Modelled from the spec: the calendar day of a count of days since
    1970-01-01, as (year, month, day). *)
Definition civilFromDays (z : Z) : Z * Z * Z :=
  let z' := z + epochShift in
  let era := z' / daysPerEra in
  let '(yoe, m, d) := civilOfDoe (z' mod daysPerEra) in
  let y := yoe + era * 400 in
  (if m <=? 2 then y + 1 else y, m, d).

(** Modelled from the spec: the count of days since 1970-01-01 of a
    calendar day. *)
Definition daysFromCivil (y m d : Z) : Z :=
  let y' := if m <=? 2 then y - 1 else y in
  let era := y' / 400 in
  let yoe := y' mod 400 in
  era * daysPerEra + doeOfCivil yoe m d - epochShift.

Definition utcDay (date : Date) : Z := date / msPerDay.

Definition digitChar (n : Z) : ascii := ascii_of_nat (48 + Z.to_nat n).

Definition digitVal (c : ascii) : option Z :=
  let n := Z.of_nat (nat_of_ascii c) in
  if (48 <=? n) && (n <=? 57) then Some (n - 48) else None.

Definition twoDigits (n : Z) (rest : string) : string :=
  String (digitChar (n / 10 mod 10)) (String (digitChar (n mod 10)) rest).

Definition fourDigits (n : Z) (rest : string) : string :=
  twoDigits (n / 100) (twoDigits n rest).

(** Modelled from the spec: [formatDateToUtcYYYYMMDD] of the framework:
    the UTC day of the date as year-month-day with four, two and two
    digits. *)
Definition formatDateToUtcYYYYMMDD (date : Date) : string :=
  let '(y, m, d) := civilFromDays (utcDay date) in
  fourDigits y (String "-" (twoDigits m (String "-" (twoDigits d EmptyString)))).

Definition number2 (a b : ascii) : option Z :=
  match digitVal a, digitVal b with
  | Some x, Some y => Some (10 * x + y)
  | _, _ => None
  end.

(** The day a text denotes, when it is the encoding of a calendar day. *)
Definition parseDay (dateString : string) : option Z :=
  match dateString with
  | String y1 (String y2 (String y3 (String y4 (String "-"
      (String m1 (String m2 (String "-" (String d1 (String d2 EmptyString))))))))) =>
      match number2 y1 y2, number2 y3 y4, number2 m1 m2, number2 d1 d2 with
      | Some yh, Some yl, Some m, Some d =>
          let y := 100 * yh + yl in
          let days := daysFromCivil y m d in
          let '(y', m', d') := civilFromDays days in
          if (y' =? y) && (m' =? m) && (d' =? d) then Some days else None
      | _, _, _, _ => None
      end
  | _ => None
  end.

(** Modelled from the spec: [parseDateFromUtcYYYYMMDD] of the framework:
    midnight UTC of the day the text encodes, or a validation error. *)
Definition parseDateFromUtcYYYYMMDD (dateString : string) : Result Date :=
  match parseDay dateString with
  | Some days => Ok (days * msPerDay)
  | None => Throw (ValidationError "Not a valid date")
  end.

(** The dates whose year has four digits: 0000-01-01 up to 9999-12-31. *)
Definition fourDigitYear (date : Date) : Prop :=
  -62167219200000 <= date < 253402300800000.

End Emmett.

(** ** The write side: events, account state and identifier

    The file [guestStayAccount.ts] is not among the sources; the read
    model and the API import the event type, [evolve], [initialState]
    and [toGuestStayAccountId] from it. *)

Module GuestStayAccount.
Import Emmett.

(** Modelled from the spec: the declaration of the five domain events
    (guestStayAccount.ts is missing), with the fields the spec lists and
    the [guestStayAccountId] that the read model reads from
    [GuestCheckedIn]. *)
Inductive GuestStayAccountEvent : Type :=
| GuestCheckedIn (guestStayAccountId guestId roomId : string) (checkedInAt : Date)
| ChargeRecorded (chargeId : string) (amount : number)
| PaymentRecorded (paymentId : string) (amount : number)
| GuestCheckedOut (checkedOutAt : Date)
| GuestCheckoutFailed (reason : string).

(** Modelled from the spec: [toGuestStayAccountId] (guestStayAccount.ts
    is missing), a deterministic key derived from the guest, the room
    and the stay date at day granularity. *)
Definition toGuestStayAccountId (guestId roomId : string) (date : Date) : string :=
  "guest_stay_account-" +:+ guestId +:+ "-" +:+ roomId +:+ "-"
    +:+ formatDateToUtcYYYYMMDD date.

(** Modelled from the spec: the fields of an opened account
    (guestStayAccount.ts is missing). *)
Record Account : Type := {
  guestId : string;
  roomId : string;
  checkedInAt : Date;
  balance : number
}.

(** Modelled from the spec: the write-side account state
    (guestStayAccount.ts is missing). *)
Inductive GuestStayAccount : Type :=
| NotExisting
| Opened (account : Account)
| CheckedOut (account : Account) (checkedOutAt : Date).

Definition initialState : GuestStayAccount := NotExisting.

(** Modelled from the spec: the write-side [evolve] (guestStayAccount.ts
    is missing): charges subtract, payments add, an event that does not
    apply to the state leaves it unchanged. *)
Definition evolve (state : GuestStayAccount) (event : GuestStayAccountEvent)
  : GuestStayAccount :=
  match event, state with
  | GuestCheckedIn _ g r at_, NotExisting =>
      Opened {| guestId := g; roomId := r; checkedInAt := at_; balance := 0%float |}
  | ChargeRecorded _ amount, Opened a =>
      Opened {| guestId := guestId a; roomId := roomId a;
                checkedInAt := checkedInAt a;
                balance := (balance a - amount)%float |}
  | PaymentRecorded _ amount, Opened a =>
      Opened {| guestId := guestId a; roomId := roomId a;
                checkedInAt := checkedInAt a;
                balance := (balance a + amount)%float |}
  | GuestCheckedOut at_, Opened a => CheckedOut a at_
  | _, _ => state
  end.

End GuestStayAccount.

(** ** The decisions

    The file [businessLogic.ts] is not among the sources. *)

Module BusinessLogic.
Import Emmett GuestStayAccount.

Variant CheckIn : Type :=
  mkCheckIn (guestId roomId : string) (now : Date).
Variant RecordCharge : Type :=
  mkRecordCharge (chargeId guestStayAccountId : string) (amount : number) (now : Date).
Variant RecordPayment : Type :=
  mkRecordPayment (paymentId guestStayAccountId : string) (amount : number) (now : Date).
Variant CheckOut : Type :=
  mkCheckOut (guestStayAccountId : string) (now : Date).

Definition chargeAmount (command : RecordCharge) : number :=
  let 'mkRecordCharge _ _ amount _ := command in amount.
Definition paymentAmount (command : RecordPayment) : number :=
  let 'mkRecordPayment _ _ amount _ := command in amount.

Definition accountDoesNotExist : Error :=
  IllegalStateError "Guest account doesn't exist!".
Definition accountAlreadyCheckedOut : Error :=
  IllegalStateError "Guest account is already checked out".
Definition balanceNotSettled : string := "balance not settled".

(** Modelled from the spec: [checkIn] (businessLogic.ts is missing). *)
Definition checkIn (command : CheckIn) (state : GuestStayAccount)
  : Result (list GuestStayAccountEvent) :=
  let 'mkCheckIn g r now := command in
  match state with
  | NotExisting => Ok [GuestCheckedIn (toGuestStayAccountId g r now) g r now]
  | Opened _ => Ok []
  | CheckedOut _ _ => Throw accountAlreadyCheckedOut
  end.

(** Modelled from the spec: [recordCharge] (businessLogic.ts is missing). *)
Definition recordCharge (command : RecordCharge) (state : GuestStayAccount)
  : Result (list GuestStayAccountEvent) :=
  let 'mkRecordCharge chargeId _ amount _ := command in
  match state with
  | NotExisting => Throw accountDoesNotExist
  | Opened _ => Ok [ChargeRecorded chargeId amount]
  | CheckedOut _ _ => Throw accountAlreadyCheckedOut
  end.

(** Modelled from the spec: [recordPayment] (businessLogic.ts is missing). *)
Definition recordPayment (command : RecordPayment) (state : GuestStayAccount)
  : Result (list GuestStayAccountEvent) :=
  let 'mkRecordPayment paymentId _ amount _ := command in
  match state with
  | NotExisting => Throw accountDoesNotExist
  | Opened _ => Ok [PaymentRecorded paymentId amount]
  | CheckedOut _ _ => Throw accountAlreadyCheckedOut
  end.

(** Modelled from the spec: [checkOut] (businessLogic.ts is missing). *)
Definition checkOut (command : CheckOut) (state : GuestStayAccount)
  : Result (list GuestStayAccountEvent) :=
  let 'mkCheckOut _ now := command in
  match state with
  | NotExisting => Throw accountDoesNotExist
  | CheckedOut _ _ => Ok []
  | Opened a =>
      if strictEq (balance a) 0%float
      then Ok [GuestCheckedOut now]
      else Ok [GuestCheckoutFailed balanceNotSettled]
  end.

End BusinessLogic.

(** ** The read model: [guestStayDetails.ts] *)

Module GuestStayDetails.
Import GuestStayAccount.

Variant Status : Type := Status_CheckedIn | Status_CheckedOut.

Record Transaction : Type := { id : string; amount : number }.

(** [transactionsCount] is a [number] that only ever grows by one per
    recorded transaction; a JavaScript array holds fewer than 2^32
    entries, a range in which that addition is exact, so it is an
    integer here.  [_version] is a [bigint]. *)
Record CheckedIn : Type := {
  _id : string;
  guestId : string;
  roomId : string;
  status : Status;
  balance : number;
  transactionsCount : Z;
  transactions : list Transaction;
  checkedInAt : Date;
  checkedOutAt : option Date;
  _version : option Z
}.

Inductive GuestStayDetails : Type :=
| NotExisting
| Document (details : CheckedIn).

Definition initialState : GuestStayDetails := NotExisting.

Definition evolve (state : GuestStayDetails) (event : GuestStayAccountEvent)
  : GuestStayDetails :=
  match event with
  | GuestCheckedIn guestStayAccountId guestId roomId checkedInAt =>
      match state with
      | NotExisting =>
          Document {| _id := guestStayAccountId;
                      guestId := guestId;
                      roomId := roomId;
                      status := Status_CheckedIn;
                      balance := 0%float;
                      transactionsCount := 0;
                      transactions := [];
                      checkedInAt := checkedInAt;
                      checkedOutAt := None;
                      _version := None |}
      | Document _ => state
      end
  | ChargeRecorded chargeId amount =>
      match state with
      | Document d =>
          match status d with
          | Status_CheckedIn =>
              Document {| _id := _id d; guestId := GuestStayDetails.guestId d;
                          roomId := GuestStayDetails.roomId d;
                          status := status d;
                          balance := (balance d - amount)%float;
                          transactionsCount := transactionsCount d + 1;
                          transactions :=
                            transactions d ++ [{| id := chargeId; amount := amount |}];
                          checkedInAt := GuestStayDetails.checkedInAt d;
                          checkedOutAt := checkedOutAt d;
                          _version := _version d |}
          | Status_CheckedOut => state
          end
      | NotExisting => state
      end
  | PaymentRecorded paymentId amount =>
      match state with
      | Document d =>
          match status d with
          | Status_CheckedIn =>
              Document {| _id := _id d; guestId := GuestStayDetails.guestId d;
                          roomId := GuestStayDetails.roomId d;
                          status := status d;
                          balance := (balance d + amount)%float;
                          transactionsCount := transactionsCount d + 1;
                          transactions :=
                            transactions d ++ [{| id := paymentId; amount := amount |}];
                          checkedInAt := GuestStayDetails.checkedInAt d;
                          checkedOutAt := checkedOutAt d;
                          _version := _version d |}
          | Status_CheckedOut => state
          end
      | NotExisting => state
      end
  | GuestCheckedOut checkedOutAt =>
      match state with
      | Document d =>
          match status d with
          | Status_CheckedIn =>
              Document {| _id := _id d; guestId := GuestStayDetails.guestId d;
                          roomId := GuestStayDetails.roomId d;
                          status := Status_CheckedOut;
                          balance := balance d;
                          transactionsCount := transactionsCount d;
                          transactions := transactions d;
                          checkedInAt := GuestStayDetails.checkedInAt d;
                          checkedOutAt := Some checkedOutAt;
                          _version := _version d |}
          | Status_CheckedOut => state
          end
      | NotExisting => state
      end
  | GuestCheckoutFailed _ => state
  end.

(** The projection folds the events of a stream, in order. *)
Definition project (events : list GuestStayAccountEvent) (state : GuestStayDetails)
  : GuestStayDetails :=
  fold_left evolve events state.

End GuestStayDetails.

(** ** The stores and the command handler

    The event store and the document store are external; [handle] is the
    framework's [CommandHandler ({ evolve, initialState })]. *)

Module CommandHandling.
Import Emmett GuestStayAccount.

Abbreviation Decider := (GuestStayAccount -> Result (list GuestStayAccountEvent)).

(** Both stores, keyed by the account id: the stream of each account and
    its projected document. *)
Record World : Type := {
  eventStore : gmap string (list GuestStayAccountEvent);
  readStore : gmap string GuestStayDetails.GuestStayDetails
}.

Record HandleResult : Type := {
  newEvents : list GuestStayAccountEvent;
  nextExpectedStreamVersion : Z
}.

(** Modelled from the spec: [readStream] of the event log client: the
    ordered events of a stream and its version. *)
Definition readStream (w : World) (streamId : string)
  : list GuestStayAccountEvent * Z :=
  let events := default [] (eventStore w !! streamId) in
  (events, Z.of_nat (length events)).

Definition aggregateState (events : list GuestStayAccountEvent) : GuestStayAccount :=
  fold_left evolve events initialState.

(** Modelled from the spec: the document is tagged with the stream
    version it reflects. *)
Definition stamp (version : Z) (state : GuestStayDetails.GuestStayDetails)
  : GuestStayDetails.GuestStayDetails :=
  match state with
  | GuestStayDetails.NotExisting => GuestStayDetails.NotExisting
  | GuestStayDetails.Document d =>
      GuestStayDetails.Document
        {| GuestStayDetails._id := GuestStayDetails._id d;
           GuestStayDetails.guestId := GuestStayDetails.guestId d;
           GuestStayDetails.roomId := GuestStayDetails.roomId d;
           GuestStayDetails.status := GuestStayDetails.status d;
           GuestStayDetails.balance := GuestStayDetails.balance d;
           GuestStayDetails.transactionsCount := GuestStayDetails.transactionsCount d;
           GuestStayDetails.transactions := GuestStayDetails.transactions d;
           GuestStayDetails.checkedInAt := GuestStayDetails.checkedInAt d;
           GuestStayDetails.checkedOutAt := GuestStayDetails.checkedOutAt d;
           GuestStayDetails._version := Some version |}
  end.

(** Modelled from the spec: [appendToStream] with optimistic concurrency,
    and the inline projection ([projections.inline] in index.ts) applied
    in the same unit of work: the events are appended, all or none, only
    if the stream is still at [expectedVersion]; the document of the
    stream is then folded forward. *)
Definition appendToStream (w : World) (streamId : string) (expectedVersion : Z)
    (events : list GuestStayAccountEvent) : World * Result Z :=
  let '(existing, current) := readStream w streamId in
  if current =? expectedVersion then
    let next := current + Z.of_nat (length events) in
    let document := default GuestStayDetails.initialState (readStore w !! streamId) in
    ({| eventStore := <[streamId := (existing ++ events)%list]> (eventStore w);
        readStore :=
          <[streamId := stamp next (GuestStayDetails.project events document)]>
            (readStore w) |},
     Ok next)
  else (w, Throw (ConcurrencyError expectedVersion current)).

(** Modelled from the spec: what another writer commits to the same
    stream between this handler's read and its append. *)
Definition concurrentWrite (streamId : string)
    (interference : list GuestStayAccountEvent) (w : World) : World :=
  match interference with
  | [] => w
  | _ :: _ => fst (appendToStream w streamId (snd (readStream w streamId)) interference)
  end.

(** Modelled from the spec: one load-decide-append cycle of the command
    handler. *)
Definition attempt (interference : list GuestStayAccountEvent)
    (w : World) (streamId : string) (decide : Decider)
  : World * Result HandleResult :=
  let '(events, version) := readStream w streamId in
  match decide (aggregateState events) with
  | Throw e => (w, Throw e)
  | Ok [] => (w, Ok {| newEvents := []; nextExpectedStreamVersion := version |})
  | Ok (e :: es) =>
      let w1 := concurrentWrite streamId interference w in
      match appendToStream w1 streamId version (e :: es) with
      | (w2, Ok next) =>
          (w2, Ok {| newEvents := e :: es; nextExpectedStreamVersion := next |})
      | (w2, Throw err) => (w2, Throw err)
      end
  end.

Definition isConflict {A : Type} (r : Result A) : bool :=
  match r with
  | Throw (ConcurrencyError _ _) => true
  | _ => false
  end.

(** Modelled from the spec: the bounded retry of the whole cycle on a
    concurrency conflict.  [schedule] lists, per attempt, what the other
    writers commit meanwhile; the third component counts the cycles
    run. *)
Fixpoint handleWithRetries (retries : nat)
    (schedule : list (list GuestStayAccountEvent))
    (w : World) (streamId : string) (decide : Decider)
  : World * Result HandleResult * nat :=
  let '(w1, r) := attempt (hd [] schedule) w streamId decide in
  match retries with
  | S k =>
      if isConflict r then
        let '(w2, r2, n) := handleWithRetries k (tl schedule) w1 streamId decide in
        (w2, r2, S n)
      else (w1, r, 1%nat)
  | O => (w1, r, 1%nat)
  end.

(** Modelled from the spec: [CommandHandler] of the framework, allowed
    [retries] retries, against the commits of [schedule]. *)
Definition CommandHandler (retries : nat)
    (schedule : list (list GuestStayAccountEvent))
    (w : World) (streamId : string) (decide : Decider)
  : World * Result HandleResult :=
  fst (handleWithRetries retries schedule w streamId decide).

End CommandHandling.

(** ** The API: [api/api.ts] *)

Module Api.
Import Emmett GuestStayAccount BusinessLogic CommandHandling.

(** The path parameters of a request; each may be missing. *)
Record Params : Type := {
  guestId : option string;
  roomId : option string;
  checkInDate : option string
}.

(** The body of a charge or payment request: [Partial<{ amount: number }>]. *)
Record AmountBody : Type := { amount : option number }.

Record AmountRequest : Type := { params : Params; body : AmountBody }.

Inductive Response : Type :=
| Created (url : string)
| NoContent
| Forbidden (problemDetails : option string)
| NotFound
| OK (body : GuestStayDetails.CheckedIn) (eTag : string).

(** [Number (value)] on an optional number: a missing value converts to
    NaN. *)
Definition Number (value : option number) : number :=
  match value with
  | Some n => n
  | None => nan
  end.

(** A request handler runs against the stores and either answers or
    throws. *)
Definition Handler (A : Type) : Type := World -> World * Result A.

Definition ret {A : Type} (a : A) : Handler A := fun w => (w, Ok a).

Definition lift {A : Type} (r : Result A) : Handler A := fun w => (w, r).

Definition andThen {A B : Type} (m : Handler A) (k : A -> Handler B) : Handler B :=
  fun w =>
    match m w with
    | (w', Ok a) => k a w'
    | (w', Throw e) => (w', Throw e)
    end.

Notation "'do' x <- m ;; k" := (andThen m (fun x => k))
  (at level 10, x name, m at level 99, k at level 200, only parsing).

Definition parseGuestStayAccountId (p : Params) : Result string :=
  bind (assertNotEmptyString (guestId p)) (fun guestId =>
  bind (assertNotEmptyString (roomId p)) (fun roomId =>
  bind (assertNotEmptyString (checkInDate p)) (fun checkInDate =>
  bind (parseDateFromUtcYYYYMMDD checkInDate) (fun date =>
  Ok (toGuestStayAccountId guestId roomId date))))).

(** [getGuestStayDetails]: [findOne ({ _id })] on the collection of
    projected documents ([guestStayDetails.ts]). *)
Definition getGuestStayDetails
    (pongo : gmap string GuestStayDetails.GuestStayDetails)
    (guestStayAccountId : string) : option GuestStayDetails.GuestStayDetails :=
  pongo !! guestStayAccountId.

(** [const { _version, ...document } = result]. *)
Definition withoutVersion (d : GuestStayDetails.CheckedIn) : GuestStayDetails.CheckedIn :=
  {| GuestStayDetails._id := GuestStayDetails._id d;
     GuestStayDetails.guestId := GuestStayDetails.guestId d;
     GuestStayDetails.roomId := GuestStayDetails.roomId d;
     GuestStayDetails.status := GuestStayDetails.status d;
     GuestStayDetails.balance := GuestStayDetails.balance d;
     GuestStayDetails.transactionsCount := GuestStayDetails.transactionsCount d;
     GuestStayDetails.transactions := GuestStayDetails.transactions d;
     GuestStayDetails.checkedInAt := GuestStayDetails.checkedInAt d;
     GuestStayDetails.checkedOutAt := GuestStayDetails.checkedOutAt d;
     GuestStayDetails._version := None |}.

Section guestStayAccountsApi.

(** The imported [handle] and helpers, and the collaborators the API is
    set up with.  [getCurrentTime] and [generateId] are each called at
    most once per request. *)
Variable handle : World -> string -> Decider -> World * Result HandleResult.
Variable assertPositiveNumber : number -> Result number.
Variable toWeakETag : option Z -> string.
Variable doesGuestStayExist : string -> string -> Date -> bool.
Variable generateId : string -> string.
Variable getCurrentTime : unit -> Date.

(** POST /guests/:guestId/stays/:roomId *)
Definition checkInRoute (p : Params) : Handler Response :=
  do guestId <- lift (assertNotEmptyString (guestId p)) ;;
  do roomId <- lift (assertNotEmptyString (roomId p)) ;;
  let now := getCurrentTime tt in
  if negb (doesGuestStayExist guestId roomId now) then ret (Forbidden None)
  else
    let guestStayAccountId := toGuestStayAccountId guestId roomId now in
    let command := mkCheckIn guestId roomId now in
    do _ <- (fun w => handle w guestStayAccountId (fun state => checkIn command state)) ;;
    ret (Created ("/guests/" +:+ guestId +:+ "/stays/" +:+ roomId +:+ "/periods/"
                    +:+ formatDateToUtcYYYYMMDD now)).

(** The command of a charge request, or the validation error. *)
Definition recordChargeCommand (guestStayAccountId : string) (request : AmountRequest)
  : Result RecordCharge :=
  let chargeId := generateId "charge" in
  bind (assertPositiveNumber (Number (amount (body request)))) (fun amount =>
  Ok (mkRecordCharge chargeId guestStayAccountId amount (getCurrentTime tt))).

(** POST /guests/:guestId/stays/:roomId/periods/:checkInDate/charges *)
Definition recordChargeRoute (request : AmountRequest) : Handler Response :=
  do guestStayAccountId <- lift (parseGuestStayAccountId (params request)) ;;
  do command <- lift (recordChargeCommand guestStayAccountId request) ;;
  do _ <- (fun w => handle w guestStayAccountId (fun state => recordCharge command state)) ;;
  ret NoContent.

(** The command of a payment request, or the validation error. *)
Definition recordPaymentCommand (guestStayAccountId : string) (request : AmountRequest)
  : Result RecordPayment :=
  let paymentId := generateId "payment" in
  bind (assertPositiveNumber (Number (amount (body request)))) (fun amount =>
  Ok (mkRecordPayment paymentId guestStayAccountId amount (getCurrentTime tt))).

(** POST /guests/:guestId/stays/:roomId/periods/:checkInDate/payments *)
Definition recordPaymentRoute (request : AmountRequest) : Handler Response :=
  do guestStayAccountId <- lift (parseGuestStayAccountId (params request)) ;;
  do command <- lift (recordPaymentCommand guestStayAccountId request) ;;
  do _ <- (fun w => handle w guestStayAccountId (fun state => recordPayment command state)) ;;
  ret NoContent.

(** The answer to a check-out, from the events the handler returned. *)
Definition checkOutResponse (newEvents : list GuestStayAccountEvent) : Response :=
  match newEvents with
  | GuestCheckoutFailed reason :: _ => Forbidden (Some reason)
  | _ => NoContent
  end.

(** DELETE /guests/:guestId/stays/:roomId/periods/:checkInDate *)
Definition checkOutRoute (p : Params) : Handler Response :=
  do guestStayAccountId <- lift (parseGuestStayAccountId p) ;;
  let command := mkCheckOut guestStayAccountId (getCurrentTime tt) in
  do result <- (fun w => handle w guestStayAccountId (fun state => checkOut command state)) ;;
  ret (checkOutResponse (newEvents result)).

(** GET /guests/:guestId/stays/:roomId/periods/:checkInDate *)
Definition getDetailsRoute (p : Params) : Handler Response :=
  do guestStayAccountId <- lift (parseGuestStayAccountId p) ;;
  fun w =>
    match getGuestStayDetails (readStore w) guestStayAccountId with
    | None => (w, Ok NotFound)
    | Some GuestStayDetails.NotExisting => (w, Ok NotFound)
    | Some (GuestStayDetails.Document result) =>
        match GuestStayDetails.status result with
        | GuestStayDetails.Status_CheckedIn =>
            (w, Ok (OK (withoutVersion result)
                       (toWeakETag (GuestStayDetails._version result))))
        | GuestStayDetails.Status_CheckedOut => (w, Ok NotFound)
        end
    end.

End guestStayAccountsApi.

End Api.

(** ** The wiring of [index.ts] and of the end-to-end test *)

Module Wiring.
Import Emmett GuestStayAccount CommandHandling.

(** [index.ts]: every guest stay exists. *)
Definition doesGuestStayExist (_guestId _roomId : string) (_day : Date) : bool := true.

(** The test's [generateId]: the prefix and a fixed transaction id. *)
Definition generateId (prefix : string) : string := prefix +:+ "-" +:+ "7f9c1e".

(** The test's clock answers one fixed instant; here 2026-11-02T15:01:00Z. *)
Definition now : Date := 1793631660000.
Definition getCurrentTime (_ : unit) : Date := now.

Definition doubleQuote : string := String (ascii_of_nat 34) EmptyString.

(** Modelled from the spec: [toWeakETag] of the framework, the weak
    entity tag of a document version. *)
Definition toWeakETag (version : option Z) : string :=
  match version with
  | Some v => "W/" +:+ doubleQuote +:+ pretty v +:+ doubleQuote
  | None => "W/" +:+ doubleQuote +:+ "undefined" +:+ doubleQuote
  end.

(** A handler with no concurrent writer. *)
Definition handle : World -> string -> Decider -> World * Result HandleResult :=
  CommandHandler 0 [].

Definition emptyWorld : World := {| eventStore := ∅; readStore := ∅ |}.

(** The requests of the end-to-end test, for guest "guest" in room
    "room", and the stores after each step of its scenarios. *)
Definition checkInParams : Api.Params :=
  {| Api.guestId := Some "guest"; Api.roomId := Some "room";
     Api.checkInDate := None |}.

Definition stayParams : Api.Params :=
  {| Api.guestId := Some "guest"; Api.roomId := Some "room";
     Api.checkInDate := Some (formatDateToUtcYYYYMMDD now) |}.

Definition amountRequest (value : option number) : Api.AmountRequest :=
  {| Api.params := stayParams; Api.body := {| Api.amount := value |} |}.

Definition accountId : string := toGuestStayAccountId "guest" "room" now.

Definition checkedInWorld : World :=
  fst (Api.checkInRoute handle doesGuestStayExist getCurrentTime checkInParams
         emptyWorld).

Definition unsettledWorld : World :=
  fst (Api.recordChargeRoute handle assertPositiveNumber generateId getCurrentTime
         (amountRequest (Some 50%float)) checkedInWorld).

Definition refusedWorld : World :=
  fst (Api.checkOutRoute handle getCurrentTime stayParams unsettledWorld).

Definition settledWorld : World :=
  fst (Api.recordPaymentRoute handle assertPositiveNumber generateId getCurrentTime
         (amountRequest (Some 50%float)) unsettledWorld).

Definition checkedOutWorld : World :=
  fst (Api.checkOutRoute handle getCurrentTime stayParams settledWorld).

End Wiring.

(** ** Vocabulary of the properties *)

Module Ledger.
Import GuestStayAccount.

(** The events that record a transaction. *)
Definition isTransaction (event : GuestStayAccountEvent) : bool :=
  match event with
  | ChargeRecorded _ _ | PaymentRecorded _ _ => true
  | _ => false
  end.

(** The amounts charged, in event order, and the amounts paid. *)
Definition charges (events : list GuestStayAccountEvent) : list number :=
  omap (fun e => match e with ChargeRecorded _ a => Some a | _ => None end) events.

Definition payments (events : list GuestStayAccountEvent) : list number :=
  omap (fun e => match e with PaymentRecorded _ a => Some a | _ => None end) events.

(** [a1 + ... + an], added from the left. *)
Definition total (amounts : list number) : number :=
  fold_left PrimFloat.add amounts 0%float.

(** The balance in closed form: all payments minus all charges. *)
Definition settledDifference (events : list GuestStayAccountEvent) : number :=
  (total (payments events) - total (charges events))%float.

(** The balance as a running result: from 0, in event order, each charge
    subtracted and each payment added. *)
Definition applyAmount (balance : number) (event : GuestStayAccountEvent) : number :=
  match event with
  | ChargeRecorded _ a => (balance - a)%float
  | PaymentRecorded _ a => (balance + a)%float
  | _ => balance
  end.

Definition runningBalance (events : list GuestStayAccountEvent) : number :=
  fold_left applyAmount events 0%float.

(** The [{ id, amount }] entries of the transactions, in event order. *)
Definition entries (events : list GuestStayAccountEvent)
  : list GuestStayDetails.Transaction :=
  omap (fun e =>
          match e with
          | ChargeRecorded i a | PaymentRecorded i a =>
              Some {| GuestStayDetails.id := i; GuestStayDetails.amount := a |}
          | _ => None
          end) events.

(** A 0.10 charge, a 0.40 payment, a 0.30 charge: the nearest binary64
    values of the three amounts. *)
Definition tenCents : number := 0x1.999999999999ap-4%float.
Definition thirtyCents : number := 0x1.3333333333333p-2%float.
Definition fortyCents : number := 0x1.999999999999ap-2%float.

Definition smallInterleaving : list GuestStayAccountEvent :=
  [ChargeRecorded "c1" tenCents; PaymentRecorded "p1" fortyCents;
   ChargeRecorded "c2" thirtyCents].

Definition isCheckedIn (state : GuestStayDetails.GuestStayDetails) : bool :=
  match state with
  | GuestStayDetails.Document d =>
      match GuestStayDetails.status d with
      | GuestStayDetails.Status_CheckedIn => true
      | GuestStayDetails.Status_CheckedOut => false
      end
  | GuestStayDetails.NotExisting => false
  end.

Definition isTransactionEvent (event : GuestStayAccountEvent) : Prop :=
  isTransaction event = true.

Import GuestStayDetails.

(** The document after a run of transactions on a checked-in document. *)
Definition afterTransactions (d : CheckedIn) (events : list GuestStayAccountEvent)
  : CheckedIn :=
  {| _id := _id d; guestId := guestId d; roomId := roomId d;
     status := Status_CheckedIn;
     balance := fold_left applyAmount events (balance d);
     transactionsCount :=
       transactionsCount d + Z.of_nat (length (charges events))
         + Z.of_nat (length (payments events));
     transactions := transactions d ++ entries events;
     checkedInAt := checkedInAt d;
     checkedOutAt := checkedOutAt d;
     _version := _version d |}.

(** The document right after check-in. *)
Definition freshDocument (i g r : string) (t : Date) : CheckedIn :=
  {| _id := i; guestId := g; roomId := r; status := Status_CheckedIn;
     balance := 0%float; transactionsCount := 0; transactions := [];
     checkedInAt := t; checkedOutAt := None; _version := None |}.

End Ledger.

Module ApiVocabulary.
Import Emmett CommandHandling Api.

(** What a charge or payment route answers once the handler has run. *)
Definition noContentAfter (handled : World * Result HandleResult)
  : World * Result Response :=
  match handled with
  | (w, Ok _) => (w, Ok NoContent)
  | (w, Throw e) => (w, Throw e)
  end.

(** What the check-in route answers once the handler has run. *)
Definition createdAfter (url : string) (handled : World * Result HandleResult)
  : World * Result Response :=
  match handled with
  | (w, Ok _) => (w, Ok (Created url))
  | (w, Throw e) => (w, Throw e)
  end.

(** The contract of the positive-number assertion: what it lets through
    is its argument, positive and finite; what it throws is a validation
    error. *)
Definition assertsPositiveFinite (assertion : number -> Result number) : Prop :=
  (forall v x, assertion v = Ok x -> x = v /\ isPositiveFinite v = true)
  /\ (forall v e, assertion v = Throw e -> exists message, e = ValidationError message).

End ApiVocabulary.

Module HandlerVocabulary.
Import Emmett CommandHandling.

(** The number of cycles the handler ran, and what it answered. *)
Definition cycles (outcome : World * Result HandleResult * nat) : nat := snd outcome.
Definition answer (outcome : World * Result HandleResult * nat) : Result HandleResult :=
  snd (fst outcome).

End HandlerVocabulary.

(** ** The projection definition and the application's wiring *)

Module Projection.
Import GuestStayAccount.

(** The [type] of an event, the tag [evolve] switches on. *)
Definition eventType (event : GuestStayAccountEvent) : string :=
  match event with
  | GuestCheckedIn _ _ _ _ => "GuestCheckedIn"
  | ChargeRecorded _ _ => "ChargeRecorded"
  | PaymentRecorded _ _ => "PaymentRecorded"
  | GuestCheckedOut _ => "GuestCheckedOut"
  | GuestCheckoutFailed _ => "GuestCheckoutFailed"
  end.

(** [guestStayDetailsProjection.canHandle] ([guestStayDetails.ts]). *)
Definition canHandle : list string :=
  ["GuestCheckedIn"; "ChargeRecorded"; "PaymentRecorded"; "GuestCheckedOut";
   "GuestCheckoutFailed"].

End Projection.

Module Index.

(** [index.ts]: [(prefix) => `${prefix}-${randomUUID()}`], for the UUID
    drawn. *)
Definition generateId (uuid : string) (prefix : string) : string :=
  prefix +:+ "-" +:+ uuid.

End Index.

Module StreamVocabulary.
Import Emmett GuestStayAccount BusinessLogic.

Definition isCheckIn (event : GuestStayAccountEvent) : bool :=
  match event with GuestCheckedIn _ _ _ _ => true | _ => false end.

Definition isCheckOut (event : GuestStayAccountEvent) : bool :=
  match event with GuestCheckedOut _ => true | _ => false end.

Definition isCheckoutFailed (event : GuestStayAccountEvent) : bool :=
  match event with GuestCheckoutFailed _ => true | _ => false end.

(** A stream whose first check-in is followed by no check-out. *)
Fixpoint staysOpen (events : list GuestStayAccountEvent) : bool :=
  match events with
  | [] => false
  | e :: later =>
      if isCheckIn e then negb (existsb isCheckOut later) else staysOpen later
  end.

(** What holds of every document built from the initial state. *)
Definition wellFormed (d : GuestStayDetails.CheckedIn) : Prop :=
  GuestStayDetails.transactionsCount d
    = Z.of_nat (length (GuestStayDetails.transactions d))
  /\ (GuestStayDetails.status d = GuestStayDetails.Status_CheckedOut
      <-> GuestStayDetails.checkedOutAt d <> None)
  /\ GuestStayDetails._version d = None.

(** A document closed at a given time. *)
Definition closedAt (t : Date) (d : GuestStayDetails.CheckedIn)
  : GuestStayDetails.CheckedIn :=
  {| GuestStayDetails._id := GuestStayDetails._id d;
     GuestStayDetails.guestId := GuestStayDetails.guestId d;
     GuestStayDetails.roomId := GuestStayDetails.roomId d;
     GuestStayDetails.status := GuestStayDetails.Status_CheckedOut;
     GuestStayDetails.balance := GuestStayDetails.balance d;
     GuestStayDetails.transactionsCount := GuestStayDetails.transactionsCount d;
     GuestStayDetails.transactions := GuestStayDetails.transactions d;
     GuestStayDetails.checkedInAt := GuestStayDetails.checkedInAt d;
     GuestStayDetails.checkedOutAt := Some t;
     GuestStayDetails._version := GuestStayDetails._version d |}.

(** Two states of the read model that differ at most in [_version], the
    field the store stamps on every document it saves. *)
Definition sameUpToVersion (stored projected : GuestStayDetails.GuestStayDetails)
  : Prop :=
  match stored, projected with
  | GuestStayDetails.NotExisting, GuestStayDetails.NotExisting => True
  | GuestStayDetails.Document d, GuestStayDetails.Document d' =>
      Api.withoutVersion d = Api.withoutVersion d'
  | _, _ => False
  end.

(** A path parameter that is missing or empty. *)
Definition blank (parameter : option string) : Prop :=
  parameter = None \/ parameter = Some "".

Definition notEmptyStringError : Error := ValidationError "NOT_A_NONEMPTY_STRING".

Definition chargeIdOf (command : RecordCharge) : string :=
  let 'mkRecordCharge chargeId _ _ _ := command in chargeId.
Definition paymentIdOf (command : RecordPayment) : string :=
  let 'mkRecordPayment paymentId _ _ _ := command in paymentId.

End StreamVocabulary.

(** * Properties *)

(** ** The read model *)

Module ReadModel.
Import GuestStayAccount GuestStayDetails Ledger.

Lemma evolve_checked_out_document (d : CheckedIn) (event : GuestStayAccountEvent) :
  status d = Status_CheckedOut -> evolve (Document d) event = Document d.
Proof.
  intros Hd. destruct event; simpl; rewrite ?Hd; reflexivity.
Qed.

(** C5: the read-side [evolve] always returns a state; an event that
    does not apply to the state ([GuestCheckedIn] on an existing
    document; a charge, a payment or a check-out when the status is not
    CheckedIn) returns the state unchanged, and [GuestCheckoutFailed]
    returns every state unchanged. *)
Theorem evolve_total_inapplicable_unchanged :
  forall state : GuestStayDetails,
    (forall event, exists state', evolve state event = state')
    /\ (forall i g r t,
          state <> NotExisting -> evolve state (GuestCheckedIn i g r t) = state)
    /\ (forall c a, isCheckedIn state = false -> evolve state (ChargeRecorded c a) = state)
    /\ (forall p a, isCheckedIn state = false -> evolve state (PaymentRecorded p a) = state)
    /\ (forall t, isCheckedIn state = false -> evolve state (GuestCheckedOut t) = state)
    /\ (forall reason, evolve state (GuestCheckoutFailed reason) = state).
Proof.
  intros state. repeat split.
  - intros event. eexists. reflexivity.
  - intros i g r t Hex. destruct state as [|d]; [congruence | reflexivity].
  - intros c a Hs. destruct state as [|d]; [reflexivity|].
    simpl in *. destruct (status d); [discriminate | reflexivity].
  - intros p a Hs. destruct state as [|d]; [reflexivity|].
    simpl in *. destruct (status d); [discriminate | reflexivity].
  - intros t Hs. destruct state as [|d]; [reflexivity|].
    simpl in *. destruct (status d); [discriminate | reflexivity].
Qed.

(** C6: on an existing document no event yields NotExisting; [_id],
    [guestId], [roomId] and [checkedInAt] are kept by every event, and a
    status changes only from CheckedIn to CheckedOut. *)
Theorem evolve_keeps_document_identity :
  forall (d : CheckedIn) (event : GuestStayAccountEvent),
    exists d',
      evolve (Document d) event = Document d'
      /\ _id d' = _id d
      /\ guestId d' = guestId d
      /\ roomId d' = roomId d
      /\ checkedInAt d' = checkedInAt d
      /\ (status d' = status d
          \/ (status d = Status_CheckedIn /\ status d' = Status_CheckedOut)).
Proof.
  intros d event.
  destruct (status d) eqn:Hs.
  - destruct event; simpl; rewrite ?Hs; eexists; (split; [reflexivity|]); simpl;
      rewrite ?Hs; auto 10.
  - exists d. rewrite evolve_checked_out_document by assumption. auto 10.
Qed.

Lemma afterTransactions_nil (d : CheckedIn) :
  status d = Status_CheckedIn -> afterTransactions d [] = d.
Proof.
  intros Hs. destruct d as [i g r s b n ts cin cout v]. simpl in Hs. subst s.
  unfold afterTransactions. simpl. f_equal; [lia | apply app_nil_r].
Qed.

Lemma afterTransactions_cons (d : CheckedIn) (e : GuestStayAccountEvent)
    (events : list GuestStayAccountEvent) :
  status d = Status_CheckedIn -> isTransactionEvent e ->
  exists d1, evolve (Document d) e = Document d1
             /\ status d1 = Status_CheckedIn
             /\ afterTransactions d1 events = afterTransactions d (e :: events).
Proof.
  intros Hs He. destruct e as [ | c a | p a | | ]; try discriminate He.
  - eexists. simpl. rewrite Hs. split; [reflexivity|]. split; [reflexivity|].
    unfold afterTransactions. simpl. f_equal; [lia | now rewrite <- app_assoc].
  - eexists. simpl. rewrite Hs. split; [reflexivity|]. split; [reflexivity|].
    unfold afterTransactions. simpl. f_equal; [lia | now rewrite <- app_assoc].
Qed.

Lemma project_transactions (events : list GuestStayAccountEvent) :
  forall d : CheckedIn,
    status d = Status_CheckedIn ->
    Forall isTransactionEvent events ->
    project events (Document d) = Document (afterTransactions d events).
Proof.
  induction events as [|e events IH]; intros d Hs Hall.
  - simpl. now rewrite afterTransactions_nil.
  - inversion Hall as [|? ? He Hrest]; subst.
    destruct (afterTransactions_cons d e events Hs He) as (d1 & Hstep & Hs1 & Heq).
    unfold project in *. simpl. rewrite Hstep. rewrite IH by assumption.
    now rewrite Heq.
Qed.

Lemma entries_length (events : list GuestStayAccountEvent) :
  Forall isTransactionEvent events ->
  length (entries events) = length events
  /\ (length (charges events) + length (payments events))%nat = length events.
Proof.
  induction 1 as [|e events He _ [IH1 IH2]]; [split; reflexivity|].
  destruct e; try discriminate He; simpl; split; lia.
Qed.

(** C2, as the running result: folding the read-side [evolve] from the
    initial state over a check-in followed by any interleaving of
    charges and payments yields a CheckedIn document whose balance is
    the result of subtracting each charge and adding each payment, from
    0, in event order; whose [transactionsCount] is the number of charges
    plus the number of payments; whose [transactions] are all the
    [{id, amount}] entries in event order; and whose [checkedInAt] is the
    check-in's timestamp.  Right after check-in the balance is 0 and the
    transactions are empty. *)
Theorem project_check_in_then_transactions :
  forall (i g r : string) (t : Date) (events : list GuestStayAccountEvent),
    Forall isTransactionEvent events ->
    project (GuestCheckedIn i g r t :: events) initialState =
      Document {| _id := i; guestId := g; roomId := r;
                  status := Status_CheckedIn;
                  balance := runningBalance events;
                  transactionsCount :=
                    Z.of_nat (length (charges events))
                      + Z.of_nat (length (payments events));
                  transactions := entries events;
                  checkedInAt := t;
                  checkedOutAt := None;
                  _version := None |}
    /\ length (entries events)
       = (length (charges events) + length (payments events))%nat
    /\ project [GuestCheckedIn i g r t] initialState
       = Document (freshDocument i g r t).
Proof.
  intros i g r t events Hall. split; [|split].
  - change (project (GuestCheckedIn i g r t :: events) initialState)
      with (project events (Document (freshDocument i g r t))).
    rewrite project_transactions by (reflexivity || assumption).
    reflexivity.
  - destruct (entries_length events Hall) as [H1 H2]. lia.
  - reflexivity.
Qed.

Lemma project_check_in_then_transactions_witness :
  Forall isTransactionEvent smallInterleaving
  /\ exists d,
       project (GuestCheckedIn "account" "guest" "room" 0 :: smallInterleaving)
         initialState = Document d
       /\ transactionsCount d = 3
       /\ balance d = runningBalance smallInterleaving.
Proof.
  assert (Hall : Forall isTransactionEvent smallInterleaving)
    by (repeat constructor).
  split; [exact Hall|].
  destruct (project_check_in_then_transactions "account" "guest" "room" 0
              smallInterleaving Hall) as (Hdoc & _ & _).
  eexists. split; [exact Hdoc|]. split; reflexivity.
Defined.

(** C2 as stated fails: after a 0.10 charge, a 0.40 payment and a 0.30
    charge the payments minus the charges are 0, and the balance of the
    document is not. *)
Lemma balance_is_not_settled_difference :
  exists d,
    project (GuestCheckedIn "account" "guest" "room" 0 :: smallInterleaving)
      initialState = Document d
    /\ Forall isTransactionEvent smallInterleaving
    /\ settledDifference smallInterleaving = 0%float
    /\ balance d <> settledDifference smallInterleaving.
Proof.
  eexists. split; [reflexivity|]. split; [repeat constructor|].
  split; [vm_compute; reflexivity|].
  intros Heq.
  apply (f_equal (fun x => strictEq x (settledDifference smallInterleaving))) in Heq.
  vm_compute in Heq. discriminate Heq.
Qed.

(** The balance depends on the interleaving: the same two charges
    followed by the same payment leave a balance of 0. *)
Lemma balance_depends_on_interleaving :
  runningBalance
    [ChargeRecorded "c1" tenCents; ChargeRecorded "c2" thirtyCents;
     PaymentRecorded "p1" fortyCents] = 0%float
  /\ runningBalance smallInterleaving <> 0%float.
Proof.
  split; [vm_compute; reflexivity|].
  intros Heq. apply (f_equal (fun x => strictEq x 0%float)) in Heq.
  vm_compute in Heq. discriminate Heq.
Qed.

End ReadModel.

(** ** The API *)

Module ApiFacts.
Import Emmett GuestStayAccount BusinessLogic CommandHandling Api.

Lemma assertNotEmptyString_some (s : string) :
  s <> "" -> assertNotEmptyString (Some s) = Ok s.
Proof.
  destruct s; [congruence | reflexivity].
Qed.

(** C10: when [doesGuestStayExist] answers false for the guest, the room
    and the current time, the check-in route answers Forbidden whatever
    the command handler is, so the handler is not invoked; the stores are
    left as they were: no event is appended and no document is created. *)
Theorem check_in_forbidden_before_handling :
  forall (handle : World -> string -> Decider -> World * Result HandleResult)
         (doesGuestStayExist : string -> string -> Date -> bool)
         (getCurrentTime : unit -> Date)
         (p : Params) (g r : string) (w : World),
    guestId p = Some g -> g <> "" ->
    roomId p = Some r -> r <> "" ->
    doesGuestStayExist g r (getCurrentTime tt) = false ->
    checkInRoute handle doesGuestStayExist getCurrentTime p w
      = (w, Ok (Forbidden None))
    /\ eventStore (fst (checkInRoute handle doesGuestStayExist getCurrentTime p w))
       = eventStore w
    /\ readStore (fst (checkInRoute handle doesGuestStayExist getCurrentTime p w))
       = readStore w.
Proof.
  intros handle exists_ clock p g r w Hg Hg' Hr Hr' Hno.
  assert (Hroute : checkInRoute handle exists_ clock p w = (w, Ok (Forbidden None))).
  { unfold checkInRoute, andThen, lift.
    rewrite Hg, Hr, !assertNotEmptyString_some by assumption.
    rewrite Hno. reflexivity. }
  rewrite Hroute. auto.
Qed.

Lemma check_in_forbidden_before_handling_witness :
  checkInRoute Wiring.handle (fun _ _ _ => false) Wiring.getCurrentTime
    {| guestId := Some "guest"; roomId := Some "room"; checkInDate := None |}
    Wiring.emptyWorld
  = (Wiring.emptyWorld, Ok (Forbidden None)).
Proof.
  apply (check_in_forbidden_before_handling Wiring.handle (fun _ _ _ => false)
           Wiring.getCurrentTime _ "guest" "room" Wiring.emptyWorld);
    (reflexivity || discriminate).
Defined.

(** C4: given what the handler returned for the check-out decision, the
    route answers NoContent when no event was emitted or the first event
    is not [GuestCheckoutFailed], and answers Forbidden with the event's
    reason as problem detail exactly when the first event is
    [GuestCheckoutFailed]. *)
Theorem check_out_answer :
  forall (handle : World -> string -> Decider -> World * Result HandleResult)
         (getCurrentTime : unit -> Date)
         (p : Params) (w w' : World) (accountId : string) (result : HandleResult),
    parseGuestStayAccountId p = Ok accountId ->
    handle w accountId
      (fun state => checkOut (mkCheckOut accountId (getCurrentTime tt)) state)
      = (w', Ok result) ->
    exists response,
      checkOutRoute handle getCurrentTime p w = (w', Ok response)
      /\ (newEvents result = [] -> response = NoContent)
      /\ (forall e rest,
            newEvents result = e :: rest ->
            (forall reason, e <> GuestCheckoutFailed reason) ->
            response = NoContent)
      /\ (forall reason,
            response = Forbidden (Some reason)
            <-> exists rest, newEvents result = GuestCheckoutFailed reason :: rest)
      /\ (forall details, response = Forbidden details ->
            exists reason, details = Some reason).
Proof.
  intros handle clock p w w' accountId result Hid Hhandled.
  exists (checkOutResponse (newEvents result)). split.
  - unfold checkOutRoute, andThen, lift, ret. rewrite Hid.
    cbv beta iota zeta. rewrite Hhandled. reflexivity.
  - unfold checkOutResponse.
    destruct (newEvents result) as [|e rest]; [|destruct e];
      (repeat split; intros;
       try reflexivity; try discriminate;
       repeat match goal with
              | H : exists _, _ |- _ => destruct H
              | H : _ :: _ = _ :: _ |- _ => inversion H; subst; clear H
              | H : Forbidden _ = Forbidden _ |- _ => inversion H; subst; clear H
              | H : forall reason, GuestCheckoutFailed _ <> _ |- _ =>
                  exfalso; eapply H; reflexivity
              end;
       try reflexivity; try discriminate; eauto).
Qed.

(** C3: the details route leaves the stores untouched; it answers
    NotFound exactly when no document is stored under the account id or
    the stored one is not CheckedIn; for a CheckedIn document it answers
    OK with the weak entity tag of the document's [_version] and a body
    that has no [_version] and every other field of the document; and
    its answer depends on the document store only, not on the event
    log. *)
Theorem details_answer :
  forall (toWeakETag : option Z -> string) (p : Params) (w : World)
         (accountId : string),
    parseGuestStayAccountId p = Ok accountId ->
    fst (getDetailsRoute toWeakETag p w) = w
    /\ (snd (getDetailsRoute toWeakETag p w) = Ok NotFound
        <-> (readStore w !! accountId = None
             \/ exists state,
                  readStore w !! accountId = Some state
                  /\ Ledger.isCheckedIn state = false))
    /\ (forall d,
          readStore w !! accountId = Some (GuestStayDetails.Document d) ->
          GuestStayDetails.status d = GuestStayDetails.Status_CheckedIn ->
          exists body,
            snd (getDetailsRoute toWeakETag p w)
              = Ok (OK body (toWeakETag (GuestStayDetails._version d)))
            /\ GuestStayDetails._version body = None
            /\ GuestStayDetails._id body = GuestStayDetails._id d
            /\ GuestStayDetails.guestId body = GuestStayDetails.guestId d
            /\ GuestStayDetails.roomId body = GuestStayDetails.roomId d
            /\ GuestStayDetails.status body = GuestStayDetails.status d
            /\ GuestStayDetails.balance body = GuestStayDetails.balance d
            /\ GuestStayDetails.transactionsCount body
               = GuestStayDetails.transactionsCount d
            /\ GuestStayDetails.transactions body = GuestStayDetails.transactions d
            /\ GuestStayDetails.checkedInAt body = GuestStayDetails.checkedInAt d
            /\ GuestStayDetails.checkedOutAt body = GuestStayDetails.checkedOutAt d)
    /\ (forall w',
          readStore w' = readStore w ->
          snd (getDetailsRoute toWeakETag p w')
            = snd (getDetailsRoute toWeakETag p w)).
Proof.
  intros etag p w accountId Hid.
  unfold getDetailsRoute, andThen, lift, getGuestStayDetails. rewrite Hid.
  split; [|split; [split|split]].
  - destruct (readStore w !! accountId) as [[|d]|]; try reflexivity.
    destruct (GuestStayDetails.status d); reflexivity.
  - intros Hnf.
    destruct (readStore w !! accountId) as [[|d]|] eqn:Hdoc; [right|right|left];
      try reflexivity.
    + eexists; split; reflexivity.
    + eexists; split; [reflexivity|]. simpl.
      destruct (GuestStayDetails.status d); [discriminate Hnf | reflexivity].
  - intros [Hnone | (state & Hsome & Hst)].
    + rewrite Hnone. reflexivity.
    + rewrite Hsome. destruct state as [|d]; [reflexivity|]. simpl in Hst.
      destruct (GuestStayDetails.status d); [discriminate Hst | reflexivity].
  - intros d Hdoc Hs. rewrite Hdoc, Hs.
    exists (withoutVersion d). simpl. auto 15.
  - intros w' Hsame. rewrite Hsame.
    destruct (readStore w !! accountId) as [[|d]|]; try reflexivity.
    destruct (GuestStayDetails.status d); reflexivity.
Qed.

Lemma check_out_answer_witness :
  snd (checkOutRoute Wiring.handle Wiring.getCurrentTime Wiring.stayParams
         Wiring.unsettledWorld)
  = Ok (Forbidden (Some balanceNotSettled)).
Proof.
  destruct (check_out_answer Wiring.handle Wiring.getCurrentTime Wiring.stayParams
              Wiring.unsettledWorld Wiring.refusedWorld Wiring.accountId
              {| newEvents := [GuestCheckoutFailed balanceNotSettled];
                 nextExpectedStreamVersion := 3 |})
    as (response & Hroute & _ & _ & Hforbidden & _).
  - vm_compute. reflexivity.
  - vm_compute. reflexivity.
  - rewrite Hroute. simpl. f_equal.
    apply Hforbidden. exists []. reflexivity.
Defined.

Lemma details_answer_witness :
  exists d body,
    readStore Wiring.checkedInWorld !! Wiring.accountId
      = Some (GuestStayDetails.Document d)
    /\ GuestStayDetails._version d = Some 1
    /\ snd (getDetailsRoute Wiring.toWeakETag Wiring.stayParams Wiring.checkedInWorld)
       = Ok (OK body (Wiring.toWeakETag (Some 1)))
    /\ GuestStayDetails._version body = None
    /\ GuestStayDetails.balance body = GuestStayDetails.balance d.
Proof.
  destruct (details_answer Wiring.toWeakETag Wiring.stayParams
              Wiring.checkedInWorld Wiring.accountId)
    as (_ & _ & Hok & _).
  - vm_compute. reflexivity.
  - eexists.
    edestruct Hok as (body & Hbody & Hversion & _ & _ & _ & _ & Hbalance & _).
    + vm_compute. reflexivity.
    + reflexivity.
    + exists body. split; [vm_compute; reflexivity|]. split; [reflexivity|].
      split; [exact Hbody|]. split; [exact Hversion | exact Hbalance].
Defined.

Lemma parseGuestStayAccountId_throws (p : Params) (e : Error) :
  parseGuestStayAccountId p = Throw e -> exists message, e = ValidationError message.
Proof.
  unfold parseGuestStayAccountId, bind, assertNotEmptyString, parseDateFromUtcYYYYMMDD.
  intros H.
  destruct (guestId p) as [[|? ?]|]; [inversion H; eauto| |inversion H; eauto].
  destruct (roomId p) as [[|? ?]|]; [inversion H; eauto| |inversion H; eauto].
  destruct (checkInDate p) as [[|c text]|]; [inversion H; eauto| |inversion H; eauto].
  destruct (parseDay (String c text)); [discriminate H | inversion H; eauto].
Qed.

Section AmountValidation.

Variable assertion : number -> Result number.
Variable generateId : string -> string.
Variable getCurrentTime : unit -> Date.
Hypothesis contract : ApiVocabulary.assertsPositiveFinite assertion.

Lemma recordChargeCommand_amount (accountId : string) (request : AmountRequest)
    (command : RecordCharge) :
  recordChargeCommand assertion generateId getCurrentTime accountId request = Ok command ->
  chargeAmount command = Number (amount (body request))
  /\ isPositiveFinite (chargeAmount command) = true.
Proof.
  unfold recordChargeCommand, bind. intros H.
  destruct (assertion (Number (amount (body request)))) as [x|e] eqn:Hx;
    [|discriminate H].
  destruct (proj1 contract _ _ Hx) as [-> Hpos].
  inversion H; subst. simpl. auto.
Qed.

Lemma recordPaymentCommand_amount (accountId : string) (request : AmountRequest)
    (command : RecordPayment) :
  recordPaymentCommand assertion generateId getCurrentTime accountId request = Ok command ->
  paymentAmount command = Number (amount (body request))
  /\ isPositiveFinite (paymentAmount command) = true.
Proof.
  unfold recordPaymentCommand, bind. intros H.
  destruct (assertion (Number (amount (body request)))) as [x|e] eqn:Hx;
    [|discriminate H].
  destruct (proj1 contract _ _ Hx) as [-> Hpos].
  inversion H; subst. simpl. auto.
Qed.

End AmountValidation.

(** Under the contract of a positive-number assertion, the routes reject
    with a validation error or hand over a positive finite amount. *)
Lemma amount_validated_under_contract :
  forall (assertion : number -> Result number)
         (generateId : string -> string) (getCurrentTime : unit -> Date),
    ApiVocabulary.assertsPositiveFinite assertion ->
    forall (request : AmountRequest) (w : World),
      ((exists message,
          forall handle,
            recordChargeRoute handle assertion generateId getCurrentTime request w
              = (w, Throw (ValidationError message)))
       \/ (exists accountId command,
             chargeAmount command = Number (amount (body request))
             /\ isPositiveFinite (chargeAmount command) = true
             /\ forall handle,
                  recordChargeRoute handle assertion generateId getCurrentTime request w
                    = ApiVocabulary.noContentAfter
                        (handle w accountId (fun state => recordCharge command state))))
      /\ ((exists message,
             forall handle,
               recordPaymentRoute handle assertion generateId getCurrentTime request w
                 = (w, Throw (ValidationError message)))
          \/ (exists accountId command,
                paymentAmount command = Number (amount (body request))
                /\ isPositiveFinite (paymentAmount command) = true
                /\ forall handle,
                     recordPaymentRoute handle assertion generateId getCurrentTime request w
                       = ApiVocabulary.noContentAfter
                           (handle w accountId
                              (fun state => recordPayment command state))))
      /\ (forall e,
            assertion (Number (amount (body request))) = Throw e ->
            (exists message,
               forall handle,
                 recordChargeRoute handle assertion generateId getCurrentTime request w
                   = (w, Throw (ValidationError message)))
            /\ (exists message,
                  forall handle,
                    recordPaymentRoute handle assertion generateId getCurrentTime request w
                      = (w, Throw (ValidationError message)))).
Proof.
  intros assertion generateId clock contract request w.
  unfold recordChargeRoute, recordPaymentRoute, andThen, lift, ret.
  destruct (parseGuestStayAccountId (params request)) as [accountId|e0] eqn:Hid.
  - split; [|split].
    + destruct (recordChargeCommand assertion generateId clock accountId request)
        as [command|e] eqn:Hc.
      * right. exists accountId, command.
        destruct (recordChargeCommand_amount _ _ _ contract _ _ _ Hc) as [Ha Hp].
        split; [assumption | split; [assumption|]].
        intros handle. unfold ApiVocabulary.noContentAfter.
        destruct (handle w accountId _) as [w' [r|e]]; reflexivity.
      * left. unfold recordChargeCommand, bind in Hc.
        destruct (assertion _) as [x|e'] eqn:Hx; [discriminate Hc|].
        destruct (proj2 contract _ _ Hx) as [message ->].
        inversion Hc; subst. exists message. reflexivity.
    + destruct (recordPaymentCommand assertion generateId clock accountId request)
        as [command|e] eqn:Hc.
      * right. exists accountId, command.
        destruct (recordPaymentCommand_amount _ _ _ contract _ _ _ Hc) as [Ha Hp].
        split; [assumption | split; [assumption|]].
        intros handle. unfold ApiVocabulary.noContentAfter.
        destruct (handle w accountId _) as [w' [r|e]]; reflexivity.
      * left. unfold recordPaymentCommand, bind in Hc.
        destruct (assertion _) as [x|e'] eqn:Hx; [discriminate Hc|].
        destruct (proj2 contract _ _ Hx) as [message ->].
        inversion Hc; subst. exists message. reflexivity.
    + intros e He. destruct (proj2 contract _ _ He) as [message ->].
      unfold recordChargeCommand, recordPaymentCommand, bind. rewrite He.
      split; exists message; reflexivity.
  - destruct (parseGuestStayAccountId_throws _ _ Hid) as [message ->].
    repeat split; try left; try intros; exists message; reflexivity.
Qed.

Lemma assertPositiveNumber_contract :
  ApiVocabulary.assertsPositiveFinite assertPositiveNumber.
Proof.
  unfold assertPositiveNumber. split.
  - intros v x H. destruct (isPositiveFinite v); [|discriminate H].
    inversion H; auto.
  - intros v e H. destruct (isPositiveFinite v); [discriminate H|].
    inversion H; eauto.
Defined.

(** For any assertion at all, what the routes do with its outcome. *)
Lemma amount_asserted_before_handling
    (assertion : number -> Result number)
    (generateId : string -> string) (getCurrentTime : unit -> Date)
    (request : AmountRequest) (w : World) :
  ((exists e,
      forall handle,
        recordChargeRoute handle assertion generateId getCurrentTime request w
          = (w, Throw e))
   \/ (exists accountId command,
         assertion (Number (amount (body request))) = Ok (chargeAmount command)
         /\ forall handle,
              recordChargeRoute handle assertion generateId getCurrentTime request w
                = ApiVocabulary.noContentAfter
                    (handle w accountId (fun state => recordCharge command state))))
  /\ ((exists e,
         forall handle,
           recordPaymentRoute handle assertion generateId getCurrentTime request w
             = (w, Throw e))
      \/ (exists accountId command,
            assertion (Number (amount (body request))) = Ok (paymentAmount command)
            /\ forall handle,
                 recordPaymentRoute handle assertion generateId getCurrentTime request w
                   = ApiVocabulary.noContentAfter
                       (handle w accountId (fun state => recordPayment command state))))
  /\ (forall e,
        assertion (Number (amount (body request))) = Throw e ->
        exists e',
          forall handle,
            recordChargeRoute handle assertion generateId getCurrentTime request w
              = (w, Throw e')
            /\ recordPaymentRoute handle assertion generateId getCurrentTime request w
               = (w, Throw e')).
Proof.
  unfold recordChargeRoute, recordPaymentRoute, recordChargeCommand,
    recordPaymentCommand, andThen, lift, ret, bind.
  destruct (parseGuestStayAccountId (params request)) as [accountId|e0].
  - destruct (assertion (Number (amount (body request)))) as [x|e] eqn:Hx.
    + split; [|split].
      * right.
        exists accountId, (mkRecordCharge (generateId "charge") accountId x
                             (getCurrentTime tt)).
        split; [reflexivity|]. intros handle. unfold ApiVocabulary.noContentAfter.
        destruct (handle w accountId _) as [w' [r|e]]; reflexivity.
      * right.
        exists accountId, (mkRecordPayment (generateId "payment") accountId x
                             (getCurrentTime tt)).
        split; [reflexivity|]. intros handle. unfold ApiVocabulary.noContentAfter.
        destruct (handle w accountId _) as [w' [r|e]]; reflexivity.
      * intros e He. discriminate He.
    + split; [|split].
      * left. exists e. reflexivity.
      * left. exists e. reflexivity.
      * intros e1 He1. exists e. auto.
  - split; [|split].
    + left. exists e0. reflexivity.
    + left. exists e0. reflexivity.
    + intros e He. exists e0. auto.
Qed.

(** C8: the amount of a charge or payment request is checked before any
    decision.  For any assertion in the place of [assertPositiveNumber]:
    when it throws on the converted body amount, both routes throw with
    the stores untouched whatever the command handler is, so without
    invoking it; otherwise a route hands the handler one decision over a
    command whose amount is what the assertion returned.  With the
    assertion that lets through the positive finite numbers: what a
    route throws then is a validation error, and the amount of every
    command handed to the handler is the converted body amount,
    positive and finite. *)
Theorem amount_validated_before_handling :
  forall (generateId : string -> string) (getCurrentTime : unit -> Date)
         (request : AmountRequest) (w : World),
    (forall assertion : number -> Result number,
       ((exists e,
           forall handle,
             recordChargeRoute handle assertion generateId getCurrentTime request w
               = (w, Throw e))
        \/ (exists accountId command,
              assertion (Number (amount (body request))) = Ok (chargeAmount command)
              /\ forall handle,
                   recordChargeRoute handle assertion generateId getCurrentTime
                     request w
                   = ApiVocabulary.noContentAfter
                       (handle w accountId (fun state => recordCharge command state))))
       /\ ((exists e,
              forall handle,
                recordPaymentRoute handle assertion generateId getCurrentTime request w
                  = (w, Throw e))
           \/ (exists accountId command,
                 assertion (Number (amount (body request)))
                   = Ok (paymentAmount command)
                 /\ forall handle,
                      recordPaymentRoute handle assertion generateId getCurrentTime
                        request w
                      = ApiVocabulary.noContentAfter
                          (handle w accountId
                             (fun state => recordPayment command state))))
       /\ (forall e,
             assertion (Number (amount (body request))) = Throw e ->
             exists e',
               forall handle,
                 recordChargeRoute handle assertion generateId getCurrentTime request w
                   = (w, Throw e')
                 /\ recordPaymentRoute handle assertion generateId getCurrentTime
                      request w
                    = (w, Throw e')))
    /\ ((exists message,
           forall handle,
             recordChargeRoute handle assertPositiveNumber generateId getCurrentTime
               request w
             = (w, Throw (ValidationError message)))
        \/ (exists accountId command,
              chargeAmount command = Number (amount (body request))
              /\ isPositiveFinite (chargeAmount command) = true
              /\ forall handle,
                   recordChargeRoute handle assertPositiveNumber generateId
                     getCurrentTime request w
                   = ApiVocabulary.noContentAfter
                       (handle w accountId (fun state => recordCharge command state))))
    /\ ((exists message,
           forall handle,
             recordPaymentRoute handle assertPositiveNumber generateId getCurrentTime
               request w
             = (w, Throw (ValidationError message)))
        \/ (exists accountId command,
              paymentAmount command = Number (amount (body request))
              /\ isPositiveFinite (paymentAmount command) = true
              /\ forall handle,
                   recordPaymentRoute handle assertPositiveNumber generateId
                     getCurrentTime request w
                   = ApiVocabulary.noContentAfter
                       (handle w accountId
                          (fun state => recordPayment command state))))
    /\ (isPositiveFinite (Number (amount (body request))) = false ->
        exists message,
          forall handle,
            recordChargeRoute handle assertPositiveNumber generateId getCurrentTime
              request w
            = (w, Throw (ValidationError message))
            /\ recordPaymentRoute handle assertPositiveNumber generateId
                 getCurrentTime request w
               = (w, Throw (ValidationError message))).
Proof.
  intros generateId clock request w.
  split; [intros assertion; apply amount_asserted_before_handling|].
  destruct (amount_validated_under_contract assertPositiveNumber generateId clock
              assertPositiveNumber_contract request w)
    as (Hcharge & Hpayment & Hrejected).
  split; [exact Hcharge|]. split; [exact Hpayment|].
  intros Hbad.
  destruct (amount_asserted_before_handling assertPositiveNumber generateId clock
              request w) as (_ & _ & Hthrown).
  destruct (Hthrown (ValidationError "NOT_A_POSITIVE_NUMBER")) as [e' Hboth].
  { unfold assertPositiveNumber. rewrite Hbad. reflexivity. }
  destruct (Hrejected (ValidationError "NOT_A_POSITIVE_NUMBER")) as [[m Hm] _].
  { unfold assertPositiveNumber. rewrite Hbad. reflexivity. }
  exists m. intros handle. destruct (Hboth handle) as [Hc Hp].
  pose proof (Hm handle) as Hc'. rewrite Hc in Hc'. inversion Hc'; subst e'.
  auto.
Qed.

Lemma amount_validated_before_handling_witness :
  exists message,
    forall handle,
      recordChargeRoute handle assertPositiveNumber Wiring.generateId
        Wiring.getCurrentTime (Wiring.amountRequest None)
        Wiring.checkedInWorld
      = (Wiring.checkedInWorld, Throw (ValidationError message)).
Proof.
  destruct (amount_validated_before_handling Wiring.generateId
              Wiring.getCurrentTime (Wiring.amountRequest None)
              Wiring.checkedInWorld)
    as (_ & _ & _ & Hrejected).
  destruct Hrejected as [message Hboth]; [reflexivity|].
  exists message. intros handle. exact (proj1 (Hboth handle)).
Defined.

End ApiFacts.

(** ** The check-out decision *)

Module Decisions.
Import Emmett GuestStayAccount BusinessLogic.

Lemma evolve_checkout_failed (state : GuestStayAccount) (reason : string) :
  evolve state (GuestCheckoutFailed reason) = state.
Proof.
  destruct state; reflexivity.
Qed.

(** C1: the check-out decision emits [GuestCheckedOut] exactly when the
    account is Opened with a balance equal to 0; on an Opened account
    with another balance it emits [GuestCheckoutFailed], a successful
    decision, and folding what it emitted leaves the account state
    unchanged; on a CheckedOut account it emits no event; on a
    NotExisting account it fails with a rule violation. *)
Theorem check_out_decision :
  forall (command : CheckOut) (state : GuestStayAccount),
    ((exists events t,
        checkOut command state = Ok events /\ In (GuestCheckedOut t) events)
     <-> exists account,
           state = Opened account /\ strictEq (balance account) 0%float = true)
    /\ (forall account,
          state = Opened account ->
          strictEq (balance account) 0%float = false ->
          checkOut command state = Ok [GuestCheckoutFailed balanceNotSettled]
          /\ fold_left evolve [GuestCheckoutFailed balanceNotSettled] state = state)
    /\ (forall account t,
          state = CheckedOut account t -> checkOut command state = Ok [])
    /\ (state = NotExisting ->
        exists message, checkOut command state = Throw (IllegalStateError message)).
Proof.
  intros [accountId now] state. split; [|split; [|split]].
  - split.
    + intros (events & t & Hdecided & Hin).
      destruct state as [|account|account t']; simpl in Hdecided.
      * discriminate Hdecided.
      * exists account. split; [reflexivity|].
        destruct (strictEq (balance account) 0%float); [reflexivity|].
        inversion Hdecided; subst. destruct Hin as [Hin|[]]. discriminate Hin.
      * inversion Hdecided; subst. destruct Hin.
    + intros (account & -> & Hzero). exists [GuestCheckedOut now], now.
      simpl. rewrite Hzero. split; [reflexivity | left; reflexivity].
  - intros account -> Hnonzero. simpl checkOut. rewrite Hnonzero.
    split; [reflexivity|]. exact (evolve_checkout_failed (Opened account) balanceNotSettled).
  - intros account t ->. reflexivity.
  - intros ->. eexists. reflexivity.
Qed.

End Decisions.

(** ** The command handler *)

Module HandlerFacts.
Import Emmett GuestStayAccount CommandHandling HandlerVocabulary.

Lemma appendToStream_current (w : World) (streamId : string)
    (events : list GuestStayAccountEvent) :
  exists w',
    appendToStream w streamId (snd (readStream w streamId)) events
      = (w', Ok (snd (readStream w streamId) + Z.of_nat (length events)))
    /\ readStream w' streamId
       = ((fst (readStream w streamId) ++ events)%list,
          snd (readStream w streamId) + Z.of_nat (length events)).
Proof.
  unfold appendToStream, readStream. simpl. rewrite Z.eqb_refl.
  eexists. split; [reflexivity|]. simpl.
  rewrite lookup_insert_eq. simpl. rewrite length_app. f_equal. lia.
Qed.

Lemma appendToStream_stale (w : World) (streamId : string) (expected : Z)
    (events : list GuestStayAccountEvent) :
  snd (readStream w streamId) <> expected ->
  appendToStream w streamId expected events
    = (w, Throw (ConcurrencyError expected (snd (readStream w streamId)))).
Proof.
  unfold appendToStream, readStream. simpl. intros Hne.
  destruct (Z.eqb_spec (Z.of_nat (length (default [] (eventStore w !! streamId))))
              expected) as [Heq|_]; [contradiction | reflexivity].
Qed.

(** A cycle whose decision yields events is rejected when another writer
    commits in between. *)
Lemma attempt_rejected (interference : list GuestStayAccountEvent) (w : World)
    (streamId : string) (decide : Decider) (e : GuestStayAccountEvent)
    (es : list GuestStayAccountEvent) :
  interference <> [] ->
  decide (aggregateState (fst (readStream w streamId))) = Ok (e :: es) ->
  isConflict (snd (attempt interference w streamId decide)) = true.
Proof.
  intros Hbusy Hdecided. unfold attempt, concurrentWrite.
  destruct (appendToStream_current w streamId interference) as (w1 & Happ & Hread1).
  destruct (readStream w streamId) as [events version] eqn:Hread.
  simpl in Hdecided. rewrite Hdecided.
  destruct interference as [|i is_]; [congruence|].
  simpl fst in *. simpl snd in *.
  rewrite Happ. simpl fst.
  rewrite appendToStream_stale; [reflexivity|].
  rewrite Hread1. simpl. lia.
Qed.

(** With no other writer, a cycle conflicts only if the decision itself
    threw a conflict. *)
Lemma attempt_alone (w : World) (streamId : string) (decide : Decider) :
  (forall state, isConflict (decide state) = false) ->
  isConflict (snd (attempt [] w streamId decide)) = false.
Proof.
  intros Hdecide. unfold attempt, concurrentWrite.
  pose proof (fun events => appendToStream_current w streamId events) as Happ.
  destruct (readStream w streamId) as [events version] eqn:Hread.
  specialize (Hdecide (aggregateState events)).
  destruct (decide (aggregateState events)) as [[|e es]|err].
  - reflexivity.
  - destruct (Happ (e :: es)) as (w1 & Hw1 & _).
    simpl snd in Hw1. rewrite Hw1. reflexivity.
  - exact Hdecide.
Qed.

Lemma handleWithRetries_bounds (retries : nat) :
  forall (schedule : list (list GuestStayAccountEvent)) (w : World)
         (streamId : string) (decide : Decider),
    (1 <= cycles (handleWithRetries retries schedule w streamId decide) <= S retries)%nat
    /\ (isConflict (answer (handleWithRetries retries schedule w streamId decide)) = true ->
        cycles (handleWithRetries retries schedule w streamId decide) = S retries).
Proof.
  unfold cycles, answer.
  induction retries as [|k IH]; intros schedule w streamId decide; simpl.
  - destruct (attempt (hd [] schedule) w streamId decide) as [w1 r]. simpl.
    split; [lia | reflexivity].
  - destruct (attempt (hd [] schedule) w streamId decide) as [w1 r].
    destruct (isConflict r) eqn:Hr.
    + specialize (IH (tl schedule) w1 streamId decide).
      destruct (handleWithRetries k (tl schedule) w1 streamId decide) as [[w2 r2] n].
      simpl in *. destruct IH as [Hn Hc]. split; [lia|].
      intros Hr2. rewrite (Hc Hr2). reflexivity.
    + simpl. split; [lia|]. intros Hr'. congruence.
Qed.

End HandlerFacts.

(** ** The account identifier and the day encoding *)

Module IdentifierFacts.
Import Emmett GuestStayAccount CommandHandling Api.

(** A day of the era gives fields in range that give the day back; the
    civil year of the era reaches 400 exactly from January 1st of its
    last year (day 146037) on. *)
Lemma civilOfDoe_spec (doe : Z) :
  0 <= doe < daysPerEra ->
  exists yoe m d,
    civilOfDoe doe = (yoe, m, d)
    /\ 0 <= yoe < 400 /\ 1 <= m <= 12 /\ 1 <= d <= 31
    /\ doeOfCivil yoe m d = doe
    /\ (m <= 2 /\ yoe = 399 <-> 146037 <= doe).
Proof.
  unfold daysPerEra, civilOfDoe, doeOfCivil. intros Hdoe.
  do 3 eexists. split; [reflexivity|].
  set (yoe := (doe - doe / 1460 + doe / 36524 - doe / 146096) / 365).
  set (doy := doe - (365 * yoe + yoe / 4 - yoe / 100)).
  set (mp := (5 * doy + 2) / 153).
  assert (Hfields : 0 <= yoe <= 399 /\ 0 <= doy <= 365 /\ 0 <= mp <= 11
                    /\ 1 <= doy - (153 * mp + 2) / 5 + 1 <= 31
                    /\ (10 <= mp /\ yoe = 399 <-> 146037 <= doe)).
  { subst mp doy yoe. Z.div_mod_to_equations. lia. }
  destruct Hfields as (Hyoe & Hdoy & Hmp & Hd & Hlast).
  destruct (Z.ltb_spec mp 10) as [Hearly|Hlate].
  - destruct (Z.ltb_spec 2 (mp + 3)); [|lia].
    replace (mp + 3 - 3) with mp by lia.
    repeat split; try lia.
  - destruct (Z.ltb_spec 2 (mp - 9)); [lia|].
    replace (mp - 9 + 9) with mp by lia.
    repeat split; try lia.
Qed.

Lemma civilFromDays_spec (z : Z) :
  exists y m d,
    civilFromDays z = (y, m, d)
    /\ daysFromCivil y m d = z
    /\ 1 <= m <= 12 /\ 1 <= d <= 31
    /\ 400 * ((z + epochShift) / daysPerEra) <= y
         <= 400 * ((z + epochShift) / daysPerEra) + 400
    /\ (y = 400 * ((z + epochShift) / daysPerEra) + 400
        <-> 146037 <= (z + epochShift) mod daysPerEra).
Proof.
  unfold civilFromDays, daysFromCivil.
  set (z' := z + epochShift). set (era := z' / daysPerEra).
  assert (Hdoe : 0 <= z' mod daysPerEra < daysPerEra)
    by (apply Z.mod_pos_bound; reflexivity).
  pose proof (Z.div_mod z' daysPerEra) as Hsplit. fold era in Hsplit.
  destruct (civilOfDoe_spec _ Hdoe)
    as (yoe & m & d & Hcivil & Hyoe & Hm & Hd & Hback & Hlast).
  rewrite Hcivil.
  exists (if m <=? 2 then yoe + era * 400 + 1 else yoe + era * 400), m, d.
  split; [reflexivity|].
  assert (Hyear : (if m <=? 2
                   then (if m <=? 2 then yoe + era * 400 + 1 else yoe + era * 400) - 1
                   else (if m <=? 2 then yoe + era * 400 + 1 else yoe + era * 400))
                  = yoe + era * 400)
    by (destruct (m <=? 2); lia).
  rewrite Hyear.
  rewrite Z.div_add, Z.mod_add, Z.div_small, Z.mod_small by lia.
  split; [unfold z', daysPerEra, epochShift in *; lia|].
  split; [lia|]. split; [lia|].
  destruct (Z.leb_spec m 2); lia.
Qed.

Lemma fourDigitYear_range (date : Date) (y m d : Z) :
  fourDigitYear date -> civilFromDays (utcDay date) = (y, m, d) -> 0 <= y <= 9999.
Proof.
  unfold fourDigitYear, utcDay, msPerDay. intros Hdate Hcivil.
  destruct (civilFromDays_spec (date / 86400000))
    as (y' & m' & d' & Heq & _ & _ & _ & Hy & Hlast).
  rewrite Hcivil in Heq. inversion Heq; subst y' m' d'. clear Heq.
  assert (Hday : -719528 <= date / 86400000 <= 2932896).
  { split; [apply Z.div_le_lower_bound | apply Z.lt_succ_r, Z.div_lt_upper_bound]; lia. }
  unfold epochShift, daysPerEra in *.
  pose proof (Z.div_mod (date / 86400000 + 719468) 146097) as Hsplit.
  pose proof (Z.mod_pos_bound (date / 86400000 + 719468) 146097) as Hdoe.
  lia.
Qed.

Lemma digitVal_digitChar (n : Z) : 0 <= n <= 9 -> digitVal (digitChar n) = Some n.
Proof.
  intros Hn. rewrite <- (Z2Nat.id n) by lia.
  assert (Hk : (Z.to_nat n < 10)%nat) by lia.
  revert Hk. generalize (Z.to_nat n) as k. intros k Hk.
  do 10 (destruct k as [|k]; [reflexivity|]). lia.
Qed.

Lemma number2_digits (n : Z) :
  0 <= n -> number2 (digitChar (n / 10 mod 10)) (digitChar (n mod 10)) = Some (n mod 100).
Proof.
  intros Hn. unfold number2.
  rewrite !digitVal_digitChar by (apply Z.mod_pos_bound || idtac; 
    pose proof (Z.mod_pos_bound (n / 10) 10); pose proof (Z.mod_pos_bound n 10); lia).
  f_equal. 
  pose proof (Z.div_mod n 10). pose proof (Z.div_mod (n / 10) 10).
  pose proof (Z.div_mod n 100). pose proof (Z.mod_pos_bound n 10).
  pose proof (Z.mod_pos_bound (n/10) 10). pose proof (Z.mod_pos_bound n 100).
  assert (n / 10 / 10 = n / 100) by (rewrite Z.div_div by lia; reflexivity).
  lia.
Qed.

Lemma parseDay_format (date : Date) :
  fourDigitYear date -> parseDay (formatDateToUtcYYYYMMDD date) = Some (utcDay date).
Proof.
  intros Hdate. unfold formatDateToUtcYYYYMMDD.
  destruct (civilFromDays_spec (utcDay date))
    as (y & m & d & Hcivil & Hdays & Hm & Hd & _).
  pose proof (fourDigitYear_range date y m d Hdate Hcivil) as Hy.
  rewrite Hcivil. unfold fourDigits, twoDigits, parseDay.
  cbv beta iota.
  rewrite !number2_digits by (try apply Z.div_pos; lia).
  cbv beta iota zeta.
  assert (Hyear : 100 * ((y / 100) mod 100) + y mod 100 = y).
  { rewrite (Z.mod_small (y / 100)).
    - pose proof (Z.div_mod y 100). lia.
    - split; [apply Z.div_pos | apply Z.div_lt_upper_bound]; lia. }
  rewrite Hyear, !Z.mod_small by lia.
  rewrite Hdays, Hcivil. rewrite !Z.eqb_refl. reflexivity.
Qed.

Lemma format_day_start (date : Date) :
  formatDateToUtcYYYYMMDD (utcDay date * msPerDay) = formatDateToUtcYYYYMMDD date.
Proof.
  unfold formatDateToUtcYYYYMMDD, utcDay at 1.
  rewrite Z.div_mul by (unfold msPerDay; lia). reflexivity.
Qed.

Lemma format_not_empty (date : Date) :
  assertNotEmptyString (Some (formatDateToUtcYYYYMMDD date))
  = Ok (formatDateToUtcYYYYMMDD date).
Proof.
  unfold formatDateToUtcYYYYMMDD.
  destruct (civilFromDays (utcDay date)) as [[y m] d]. reflexivity.
Qed.




End IdentifierFacts.

(** ** Further properties of the read model and of the scenarios of the
       end-to-end test *)

Module Scenarios.
Import Emmett GuestStayAccount BusinessLogic CommandHandling Api.

(** X2: once checked out, a document is changed by no further event. *)
Theorem checked_out_document_is_frozen :
  forall (d : GuestStayDetails.CheckedIn) (events : list GuestStayAccountEvent),
    GuestStayDetails.status d = GuestStayDetails.Status_CheckedOut ->
    GuestStayDetails.project events (GuestStayDetails.Document d)
    = GuestStayDetails.Document d.
Proof.
  intros d events Hout. unfold GuestStayDetails.project.
  induction events as [|e events IH]; [reflexivity|].
  simpl. rewrite ReadModel.evolve_checked_out_document by exact Hout. exact IH.
Qed.

Lemma checked_out_document_is_frozen_witness :
  exists d,
    readStore Wiring.checkedOutWorld !! Wiring.accountId
      = Some (GuestStayDetails.Document d)
    /\ GuestStayDetails.project [ChargeRecorded "late" 50%float]
         (GuestStayDetails.Document d)
       = GuestStayDetails.Document d.
Proof.
  eexists. split; [vm_compute; reflexivity|].
  apply checked_out_document_is_frozen. reflexivity.
Defined.

(** X3: what a throwing handler throws, the check-out route throws. *)
Theorem check_out_route_rethrows :
  forall (handle : World -> string -> Decider -> World * Result HandleResult)
         (getCurrentTime : unit -> Date)
         (p : Params) (w w' : World) (accountId : string) (e : Error),
    parseGuestStayAccountId p = Ok accountId ->
    handle w accountId
      (fun state => checkOut (mkCheckOut accountId (getCurrentTime tt)) state)
      = (w', Throw e) ->
    checkOutRoute handle getCurrentTime p w = (w', Throw e).
Proof.
  intros handle clock p w w' accountId e Hid Hthrown.
  unfold checkOutRoute, andThen, lift. rewrite Hid.
  cbv beta iota zeta. rewrite Hthrown. reflexivity.
Qed.

Lemma check_out_route_rethrows_witness :
  checkOutRoute Wiring.handle Wiring.getCurrentTime Wiring.stayParams Wiring.emptyWorld
  = (Wiring.emptyWorld, Throw accountDoesNotExist).
Proof.
  apply (check_out_route_rethrows Wiring.handle Wiring.getCurrentTime
           Wiring.stayParams Wiring.emptyWorld Wiring.emptyWorld Wiring.accountId).
  - vm_compute. reflexivity.
  - vm_compute. reflexivity.
Defined.

(** Check-in, then the details: a CheckedIn document with balance 0, no
    transaction, and the check-in time. *)
Theorem details_after_check_in :
  snd (getDetailsRoute Wiring.toWeakETag Wiring.stayParams Wiring.checkedInWorld)
  = Ok (OK {| GuestStayDetails._id := Wiring.accountId;
              GuestStayDetails.guestId := "guest";
              GuestStayDetails.roomId := "room";
              GuestStayDetails.status := GuestStayDetails.Status_CheckedIn;
              GuestStayDetails.balance := 0%float;
              GuestStayDetails.transactionsCount := 0;
              GuestStayDetails.transactions := [];
              GuestStayDetails.checkedInAt := Wiring.now;
              GuestStayDetails.checkedOutAt := None;
              GuestStayDetails._version := None |}
           (Wiring.toWeakETag (Some 1))).
Proof.
  unfold Wiring.checkedInWorld. vm_compute. reflexivity.
Qed.

(** Check-in, a charge of 50, then the details: balance -50 and one
    transaction. *)
Theorem details_after_charge :
  exists d eTag,
    snd (getDetailsRoute Wiring.toWeakETag Wiring.stayParams Wiring.unsettledWorld)
      = Ok (OK d eTag)
    /\ GuestStayDetails.status d = GuestStayDetails.Status_CheckedIn
    /\ GuestStayDetails.balance d = (-50)%float
    /\ GuestStayDetails.transactionsCount d = 1
    /\ map GuestStayDetails.amount (GuestStayDetails.transactions d) = [50%float].
Proof.
  do 2 eexists. split; [vm_compute; reflexivity|].
  repeat split.
Qed.

(** Check-in, charge and payment of 50, check-out: the check-out answers
    NoContent, the details are then NotFound, and the document is still
    stored, CheckedOut. *)
Theorem checked_out_stay_is_not_found :
  snd (checkOutRoute Wiring.handle Wiring.getCurrentTime Wiring.stayParams
         Wiring.settledWorld) = Ok NoContent
  /\ snd (getDetailsRoute Wiring.toWeakETag Wiring.stayParams Wiring.checkedOutWorld)
     = Ok NotFound
  /\ exists d,
       readStore Wiring.checkedOutWorld !! Wiring.accountId
         = Some (GuestStayDetails.Document d)
       /\ GuestStayDetails.status d = GuestStayDetails.Status_CheckedOut.
Proof.
  split; [vm_compute; reflexivity|]. split; [vm_compute; reflexivity|].
  eexists. split; [vm_compute; reflexivity|]. reflexivity.
Qed.

(** Check-in, a charge of 50, check-out: the check-out is refused with
    the reason of the failure event, and the document stays CheckedIn
    with balance -50. *)
Theorem refused_check_out_keeps_the_stay :
  snd (checkOutRoute Wiring.handle Wiring.getCurrentTime Wiring.stayParams
         Wiring.unsettledWorld) = Ok (Forbidden (Some balanceNotSettled))
  /\ exists d,
       readStore Wiring.refusedWorld !! Wiring.accountId
         = Some (GuestStayDetails.Document d)
       /\ GuestStayDetails.status d = GuestStayDetails.Status_CheckedIn
       /\ GuestStayDetails.balance d = (-50)%float.
Proof.
  split; [vm_compute; reflexivity|].
  eexists. split; [vm_compute; reflexivity|]. split; reflexivity.
Qed.

(** With no other writer and a decision that throws no conflict, the
    handler runs one cycle and answers no conflict. *)
Theorem handler_alone_runs_once :
  forall (retries : nat) (w : World) (streamId : string) (decide : Decider),
    (forall state, isConflict (decide state) = false) ->
    HandlerVocabulary.cycles (handleWithRetries retries [] w streamId decide) = 1%nat
    /\ isConflict (snd (CommandHandler retries [] w streamId decide)) = false.
Proof.
  intros retries w streamId decide Hdecide.
  pose proof (HandlerFacts.attempt_alone w streamId decide Hdecide) as Halone.
  unfold CommandHandler, HandlerVocabulary.cycles.
  destruct retries as [|k]; simpl;
    destruct (attempt [] w streamId decide) as [w1 r]; simpl in *;
    rewrite ?Halone; simpl; auto.
Qed.

Lemma handler_alone_runs_once_witness :
  HandlerVocabulary.cycles
    (handleWithRetries 3 [] Wiring.checkedInWorld Wiring.accountId
       (fun state => recordCharge (mkRecordCharge "c" Wiring.accountId 50%float Wiring.now)
                       state))
  = 1%nat.
Proof.
  apply (handler_alone_runs_once 3 Wiring.checkedInWorld Wiring.accountId).
  intros state. destruct state; reflexivity.
Defined.

End Scenarios.

(** ** The read model over whole streams *)

Module StreamFacts.
Import GuestStayAccount GuestStayDetails Ledger StreamVocabulary.

(** One event on an existing document: what it keeps and what it may
    extend. *)
Lemma evolve_document_step (d : CheckedIn) (event : GuestStayAccountEvent) :
  exists d',
    evolve (Document d) event = Document d'
    /\ _id d' = _id d /\ guestId d' = guestId d /\ roomId d' = roomId d
    /\ checkedInAt d' = checkedInAt d /\ _version d' = _version d
    /\ transactions d `prefix_of` transactions d'
    /\ transactionsCount d' - transactionsCount d
       = Z.of_nat (length (transactions d')) - Z.of_nat (length (transactions d))
    /\ (wellFormed d -> wellFormed d').
Proof.
  destruct (status d) eqn:Hs.
  - destruct event; simpl; rewrite ?Hs; eexists; (split; [reflexivity|]); simpl;
      repeat split;
      try reflexivity; try (apply prefix_app_r; reflexivity);
      try (rewrite ?length_app; simpl; lia);
      unfold wellFormed in *; simpl in *; intuition (try congruence);
      rewrite ?length_app; simpl; try lia.
  - exists d. rewrite ReadModel.evolve_checked_out_document by assumption.
    repeat (split; [reflexivity || lia|]). auto.
Qed.

Lemma project_document_steps (events : list GuestStayAccountEvent) :
  forall d : CheckedIn,
    exists d',
      project events (Document d) = Document d'
      /\ _id d' = _id d /\ guestId d' = guestId d /\ roomId d' = roomId d
      /\ checkedInAt d' = checkedInAt d /\ _version d' = _version d
      /\ transactions d `prefix_of` transactions d'
      /\ transactionsCount d' - transactionsCount d
         = Z.of_nat (length (transactions d')) - Z.of_nat (length (transactions d))
      /\ (wellFormed d -> wellFormed d').
Proof.
  unfold project.
  induction events as [|e events IH]; intros d.
  - exists d. simpl. repeat (split; [reflexivity || lia|]). auto.
  - destruct (evolve_document_step d e)
      as (d1 & Hstep & Hi & Hg & Hr & Hc & Hv & Hp & Hn & Hw).
    destruct (IH d1) as (d' & Hrest & Hi' & Hg' & Hr' & Hc' & Hv' & Hp' & Hn' & Hw').
    exists d'. simpl. rewrite Hstep.
    split; [exact Hrest|].
    repeat (split; [congruence|]).
    split; [etransitivity; eassumption|].
    split; [lia | auto].
Qed.

Lemma project_before_check_in (events : list GuestStayAccountEvent) :
  existsb isCheckIn events = false -> project events NotExisting = NotExisting.
Proof.
  unfold project. induction events as [|e events IH]; [reflexivity|].
  simpl. intros Hnone. apply orb_false_iff in Hnone. destruct Hnone as [He Hrest].
  destruct e; try discriminate He; simpl; auto.
Qed.

(** X4: the projection of a stream from the initial state is NotExisting
    exactly when the stream holds no [GuestCheckedIn]: nothing but a
    check-in creates the document, and nothing deletes it. *)
Theorem document_exists_iff_checked_in :
  forall events : list GuestStayAccountEvent,
    project events initialState = NotExisting
    <-> existsb isCheckIn events = false.
Proof.
  intros events. split; [|apply project_before_check_in].
  unfold initialState. induction events as [|e events IH]; [reflexivity|].
  intros Hnone. destruct (isCheckIn e) eqn:He.
  - exfalso. destruct e; try discriminate He.
    unfold project in Hnone. simpl in Hnone.
    match type of Hnone with
    | fold_left evolve events (Document ?d) = _ =>
        destruct (project_document_steps events d) as (d' & Hd' & _)
    end.
    unfold project in Hd'. congruence.
  - simpl. rewrite He. simpl. apply IH.
    unfold project in *. simpl in Hnone.
    destruct e; try discriminate He; exact Hnone.
Qed.

(** X5: the first [GuestCheckedIn] of a stream names the document: the
    events before it are ignored, and [_id], [guestId], [roomId] and
    [checkedInAt] are its fields whatever follows, later check-ins
    included. *)
Theorem first_check_in_names_the_document :
  forall (before later : list GuestStayAccountEvent) (i g r : string) (t : Date),
    existsb isCheckIn before = false ->
    exists d,
      project (before ++ GuestCheckedIn i g r t :: later) initialState = Document d
      /\ _id d = i /\ guestId d = g /\ roomId d = r /\ checkedInAt d = t.
Proof.
  intros before later i g r t Hnone.
  destruct (project_document_steps later (freshDocument i g r t))
    as (d & Hd & Hi & Hg & Hr & Hc & _).
  exists d. split; [|auto].
  unfold project in *. rewrite fold_left_app.
  fold (project before initialState). unfold initialState.
  rewrite project_before_check_in by assumption. exact Hd.
Qed.

Lemma first_check_in_names_the_document_witness :
  exists d,
    project ([GuestCheckoutFailed "early"; ChargeRecorded "c0" 50%float]
               ++ GuestCheckedIn "account" "guest" "room" 7
               :: [GuestCheckedIn "other" "someone" "elsewhere" 9])
      initialState = Document d
    /\ _id d = "account" /\ guestId d = "guest" /\ roomId d = "room"
    /\ checkedInAt d = 7.
Proof.
  apply first_check_in_names_the_document. reflexivity.
Defined.

(** X6: in every document projected from the initial state the
    transactions count is the length of the transactions list, the
    check-out time is set exactly when the status is CheckedOut, and
    [_version] is not set by the fold. *)
Theorem projected_document_is_well_formed :
  forall (events : list GuestStayAccountEvent) (d : CheckedIn),
    project events initialState = Document d ->
    transactionsCount d = Z.of_nat (length (transactions d))
    /\ (status d = Status_CheckedOut <-> checkedOutAt d <> None)
    /\ _version d = None.
Proof.
  unfold initialState.
  induction events as [|e events IH]; intros d Hd; [discriminate Hd|].
  destruct (isCheckIn e) eqn:He.
  - destruct e as [i g r t| | | |]; try discriminate He.
    destruct (project_document_steps events (freshDocument i g r t))
      as (d' & Hd' & _ & _ & _ & _ & _ & _ & _ & Hw).
    unfold project in *. simpl in Hd. unfold freshDocument in Hd'.
    rewrite Hd' in Hd. inversion Hd; subst d'. apply Hw.
    unfold wellFormed, freshDocument. simpl. intuition congruence.
  - apply IH. unfold project in *. simpl in Hd.
    destruct e; try discriminate He; exact Hd.
Qed.

Lemma projected_document_is_well_formed_witness :
  exists d,
    project (GuestCheckedIn "account" "guest" "room" 0 :: smallInterleaving)
      initialState = Document d
    /\ transactionsCount d = Z.of_nat (length (transactions d)).
Proof.
  eexists. split; [reflexivity|].
  apply (projected_document_is_well_formed
           (GuestCheckedIn "account" "guest" "room" 0 :: smallInterleaving)).
  reflexivity.
Defined.

(** X7: the transactions of a projected document only grow: when the
    events of a stream so far project, from the initial state, to a
    document, the stream with any later events appended projects to a
    document that has the earlier transactions as a prefix of its own,
    and whose count grew by the number of entries added. *)
Theorem transactions_only_grow :
  forall (earlier later : list GuestStayAccountEvent) (d : CheckedIn),
    project earlier initialState = Document d ->
    exists d',
      project (earlier ++ later) initialState = Document d'
      /\ transactions d `prefix_of` transactions d'
      /\ transactionsCount d' - transactionsCount d
         = Z.of_nat (length (transactions d')) - Z.of_nat (length (transactions d)).
Proof.
  intros earlier later d Hearlier.
  destruct (project_document_steps later d)
    as (d' & Hd' & _ & _ & _ & _ & _ & Hp & Hn & _).
  exists d'. split; [|auto].
  unfold project in *. rewrite fold_left_app, Hearlier. exact Hd'.
Qed.

Lemma transactions_only_grow_witness :
  exists d d',
    project [GuestCheckedIn "account" "guest" "room" 0; ChargeRecorded "c0" tenCents]
      initialState = Document d
    /\ project ([GuestCheckedIn "account" "guest" "room" 0; ChargeRecorded "c0" tenCents]
                  ++ smallInterleaving) initialState = Document d'
    /\ length (transactions d) = 1%nat
    /\ transactions d `prefix_of` transactions d'.
Proof.
  eexists.
  edestruct (transactions_only_grow
               [GuestCheckedIn "account" "guest" "room" 0; ChargeRecorded "c0" tenCents]
               smallInterleaving) as (d' & Hlater & Hprefix & _).
  - reflexivity.
  - exists d'. split; [reflexivity|]. split; [exact Hlater|].
    split; [reflexivity | exact Hprefix].
Defined.

(** X8: [GuestCheckoutFailed] events can be dropped from a stream
    without changing what it projects to, from any state. *)
Theorem failed_check_outs_do_not_project :
  forall (events : list GuestStayAccountEvent) (state : GuestStayDetails),
    project (filter (fun e => negb (isCheckoutFailed e)) events) state
    = project events state.
Proof.
  unfold project. induction events as [|e events IH]; intros state; [reflexivity|].
  destruct e; simpl; rewrite ?IH; reflexivity.
Qed.

Lemma evolve_check_out (d : CheckedIn) (t : Date) :
  status d = Status_CheckedIn ->
  evolve (Document d) (GuestCheckedOut t) = Document (closedAt t d).
Proof.
  intros Hs. simpl. rewrite Hs. reflexivity.
Qed.

Lemma project_closed (events : list GuestStayAccountEvent) (d : CheckedIn) :
  status d = Status_CheckedOut -> fold_left evolve events (Document d) = Document d.
Proof.
  intros Hout. induction events as [|e events IH]; [reflexivity|].
  simpl. rewrite ReadModel.evolve_checked_out_document by exact Hout. exact IH.
Qed.

Lemma afterTransactions_skip (d : CheckedIn) (e : GuestStayAccountEvent)
    (events : list GuestStayAccountEvent) :
  isTransaction e = false ->
  afterTransactions d (e :: events) = afterTransactions d events.
Proof.
  intros He. destruct e; try discriminate He; reflexivity.
Qed.

Lemma project_open (events : list GuestStayAccountEvent) :
  forall d : CheckedIn,
    status d = Status_CheckedIn ->
    existsb isCheckOut events = false ->
    project events (Document d) = Document (afterTransactions d events).
Proof.
  induction events as [|e events IH]; intros d Hs Hopen.
  - simpl. now rewrite ReadModel.afterTransactions_nil.
  - simpl in Hopen. apply orb_false_iff in Hopen. destruct Hopen as [He Hopen].
    destruct (isTransaction e) eqn:Htx.
    + destruct (ReadModel.afterTransactions_cons d e events Hs Htx)
        as (d1 & Hstep & Hs1 & Heq).
      unfold project in *. simpl. rewrite Hstep, IH by assumption. now rewrite Heq.
    + rewrite afterTransactions_skip by assumption.
      rewrite <- IH by assumption. unfold project. simpl.
      destruct e; try discriminate Htx; try discriminate He; reflexivity.
Qed.

Lemma entries_count (events : list GuestStayAccountEvent) :
  length (entries events)
  = (length (charges events) + length (payments events))%nat.
Proof.
  induction events as [|e events IH]; [reflexivity|].
  destruct e; simpl; lia.
Qed.

(** X9: after a check-in and any events with no [GuestCheckedOut] among
    them -- charges, payments, failed check-outs, repeated check-ins --
    the document is CheckedIn; its balance is the running result of the
    charges and payments alone, its transactions are their entries in
    order, its count is their number, and it has no check-out time. *)
Theorem open_stay_projection :
  forall (i g r : string) (t : Date) (events : list GuestStayAccountEvent),
    existsb isCheckOut events = false ->
    project (GuestCheckedIn i g r t :: events) initialState =
      Document {| _id := i; guestId := g; roomId := r;
                  status := Status_CheckedIn;
                  balance := runningBalance events;
                  transactionsCount := Z.of_nat (length (entries events));
                  transactions := entries events;
                  checkedInAt := t;
                  checkedOutAt := None;
                  _version := None |}.
Proof.
  intros i g r t events Hopen.
  change (project (GuestCheckedIn i g r t :: events) initialState)
    with (project events (Document (freshDocument i g r t))).
  rewrite project_open by (reflexivity || assumption).
  unfold afterTransactions, freshDocument. simpl.
  rewrite entries_count, Nat2Z.inj_add. reflexivity.
Qed.

Lemma open_stay_projection_witness :
  exists d,
    project (GuestCheckedIn "account" "guest" "room" 0
               :: [ChargeRecorded "c1" 50%float; GuestCheckoutFailed "unsettled";
                   GuestCheckedIn "account" "guest" "room" 1;
                   PaymentRecorded "p1" 50%float])
      initialState = Document d
    /\ transactionsCount d = 2 /\ checkedInAt d = 0.
Proof.
  eexists. split; [apply open_stay_projection; reflexivity|].
  split; reflexivity.
Defined.

(** X10: the first [GuestCheckedOut] after the check-in closes the stay:
    the document is the one of the events before it, with status
    CheckedOut and that event's time as check-out time; the events after
    it, a later check-out included, change nothing. *)
Theorem closed_stay_projection :
  forall (i g r : string) (t t' : Date)
         (before later : list GuestStayAccountEvent),
    existsb isCheckOut before = false ->
    project (GuestCheckedIn i g r t :: before ++ GuestCheckedOut t' :: later)
      initialState
    = Document (closedAt t' (afterTransactions (freshDocument i g r t) before)).
Proof.
  intros i g r t t' before later Hopen.
  change (project (GuestCheckedIn i g r t :: before ++ GuestCheckedOut t' :: later)
            initialState)
    with (project (before ++ GuestCheckedOut t' :: later)
            (Document (freshDocument i g r t))).
  unfold project. rewrite fold_left_app. fold (project before (Document (freshDocument i g r t))).
  rewrite project_open by (reflexivity || assumption).
  cbn [fold_left].
  rewrite evolve_check_out by reflexivity.
  apply project_closed. reflexivity.
Qed.

Lemma closed_stay_projection_witness :
  exists d,
    project (GuestCheckedIn "account" "guest" "room" 0
               :: [ChargeRecorded "c1" 50%float; PaymentRecorded "p1" 50%float]
               ++ GuestCheckedOut 5
               :: [ChargeRecorded "late" 50%float; GuestCheckedOut 9])
      initialState = Document d
    /\ status d = Status_CheckedOut /\ checkedOutAt d = Some 5
    /\ transactionsCount d = 2.
Proof.
  eexists. split; [apply closed_stay_projection; reflexivity|].
  repeat split.
Defined.

End StreamFacts.

(** ** The routes: rejected requests and possible answers *)

Module RouteFacts.
Import Emmett GuestStayAccount BusinessLogic CommandHandling Api StreamVocabulary.

Lemma assertNotEmptyString_blank (parameter : option string) :
  blank parameter -> assertNotEmptyString parameter = Throw notEmptyStringError.
Proof.
  intros [-> | ->]; reflexivity.
Qed.

Lemma assertNotEmptyString_ok (parameter : option string) (value : string) :
  assertNotEmptyString parameter = Ok value ->
  parameter = Some value /\ value <> "".
Proof.
  destruct parameter as [[|c rest]|]; try discriminate.
  intros H. inversion H; subst. split; [reflexivity | discriminate].
Qed.

Lemma assertNotEmptyString_outcome (parameter : option string) :
  blank parameter \/ exists value, assertNotEmptyString parameter = Ok value.
Proof.
  destruct parameter as [[|c rest]|]; unfold blank; eauto.
Qed.

(** X11: [parseGuestStayAccountId] throws the non-empty-string
    validation error as soon as the guest id, the room id or the
    check-in date is missing or empty; when it returns an id, all three
    were present and non-empty, the date parsed, and the id is
    [toGuestStayAccountId] of them. *)
Theorem parse_account_id_outcomes :
  forall p : Params,
    (blank (guestId p) \/ blank (roomId p) \/ blank (checkInDate p) ->
     parseGuestStayAccountId p = Throw notEmptyStringError)
    /\ (forall accountId,
          parseGuestStayAccountId p = Ok accountId ->
          exists g r day date,
            guestId p = Some g /\ g <> ""
            /\ roomId p = Some r /\ r <> ""
            /\ checkInDate p = Some day /\ day <> ""
            /\ parseDateFromUtcYYYYMMDD day = Ok date
            /\ accountId = toGuestStayAccountId g r date).
Proof.
  intros p. unfold parseGuestStayAccountId, bind. split.
  - intros Hblank.
    destruct (assertNotEmptyString_outcome (guestId p)) as [Hg | [g Hg]];
      [now rewrite assertNotEmptyString_blank|].
    rewrite Hg.
    destruct (assertNotEmptyString_outcome (roomId p)) as [Hr | [r Hr]];
      [now rewrite assertNotEmptyString_blank|].
    rewrite Hr.
    destruct (assertNotEmptyString_outcome (checkInDate p)) as [Hc | [c Hc]];
      [now rewrite assertNotEmptyString_blank|].
    exfalso.
    destruct Hblank as [Hb | [Hb | Hb]];
      apply assertNotEmptyString_blank in Hb; congruence.
  - intros accountId Hparsed.
    destruct (assertNotEmptyString (guestId p)) as [g|] eqn:Hg; [|discriminate].
    destruct (assertNotEmptyString (roomId p)) as [r|] eqn:Hr; [|discriminate].
    destruct (assertNotEmptyString (checkInDate p)) as [c|] eqn:Hc; [|discriminate].
    destruct (parseDateFromUtcYYYYMMDD c) as [date|] eqn:Hd; [|discriminate].
    apply assertNotEmptyString_ok in Hg, Hr, Hc.
    destruct Hg, Hr, Hc. inversion Hparsed; subst.
    exists g, r, c, date. auto 10.
Qed.

(** X12: when the path parameters do not parse to an account id, the
    charge, payment, check-out and details routes all throw that same
    validation error and leave the stores untouched, whatever the
    command handler is: it is not invoked. *)
Theorem unparsed_parameters_stop_every_route :
  forall (assertion : number -> Result number) (toWeakETag : option Z -> string)
         (generateId : string -> string) (getCurrentTime : unit -> Date)
         (request : AmountRequest) (w : World) (e : Error),
    parseGuestStayAccountId (params request) = Throw e ->
    (exists message, e = ValidationError message)
    /\ forall handle : World -> string -> Decider -> World * Result HandleResult,
         recordChargeRoute handle assertion generateId getCurrentTime request w
           = (w, Throw e)
         /\ recordPaymentRoute handle assertion generateId getCurrentTime request w
            = (w, Throw e)
         /\ checkOutRoute handle getCurrentTime (params request) w = (w, Throw e)
         /\ getDetailsRoute toWeakETag (params request) w = (w, Throw e).
Proof.
  intros assertion etag generateId clock request w e Hparse.
  split; [exact (ApiFacts.parseGuestStayAccountId_throws _ _ Hparse)|].
  intros handle.
  unfold recordChargeRoute, recordPaymentRoute, checkOutRoute, getDetailsRoute,
    andThen, lift.
  rewrite Hparse. auto.
Qed.

Lemma unparsed_parameters_stop_every_route_witness :
  checkOutRoute Wiring.handle Wiring.getCurrentTime Wiring.checkInParams
    Wiring.checkedInWorld
  = (Wiring.checkedInWorld, Throw notEmptyStringError).
Proof.
  destruct (unparsed_parameters_stop_every_route assertPositiveNumber
              Wiring.toWeakETag Wiring.generateId Wiring.getCurrentTime
              {| params := Wiring.checkInParams; body := {| amount := None |} |}
              Wiring.checkedInWorld notEmptyStringError)
    as [_ Hroutes]; [reflexivity|].
  destruct (Hroutes Wiring.handle) as (_ & _ & Hout & _). exact Hout.
Defined.

(** X13: a check-in whose guest id or room id is missing or empty throws
    the non-empty-string validation error with the stores untouched,
    before [doesGuestStayExist] is consulted and before the handler is
    invoked: whatever these two are. *)
Theorem check_in_rejects_blank_identifiers :
  forall (p : Params) (w : World),
    blank (guestId p) \/ blank (roomId p) ->
    forall (handle : World -> string -> Decider -> World * Result HandleResult)
           (doesGuestStayExist : string -> string -> Date -> bool)
           (getCurrentTime : unit -> Date),
      checkInRoute handle doesGuestStayExist getCurrentTime p w
      = (w, Throw notEmptyStringError).
Proof.
  intros p w Hblank handle exists_ clock.
  unfold checkInRoute, andThen, lift.
  destruct (assertNotEmptyString_outcome (guestId p)) as [Hg | [g Hg]];
    [now rewrite assertNotEmptyString_blank|].
  rewrite Hg.
  destruct Hblank as [Hb | Hb].
  - apply assertNotEmptyString_blank in Hb. congruence.
  - now rewrite assertNotEmptyString_blank.
Qed.

Lemma check_in_rejects_blank_identifiers_witness :
  checkInRoute Wiring.handle Wiring.doesGuestStayExist Wiring.getCurrentTime
    {| guestId := Some "guest"; roomId := Some ""; checkInDate := None |}
    Wiring.emptyWorld
  = (Wiring.emptyWorld, Throw notEmptyStringError).
Proof.
  apply check_in_rejects_blank_identifiers. right. right. reflexivity.
Defined.

(** X14: the answers of the routes.  Whatever the handler and the
    stores, a check-in that answers answers Forbidden without detail or
    Created; a charge or a payment answers NoContent; a check-out
    answers NoContent or Forbidden with a reason; the details answer
    NotFound or OK with a CheckedIn document that carries no
    [_version]. *)
Theorem route_answers :
  forall (handle : World -> string -> Decider -> World * Result HandleResult)
         (assertion : number -> Result number) (toWeakETag : option Z -> string)
         (doesGuestStayExist : string -> string -> Date -> bool)
         (generateId : string -> string) (getCurrentTime : unit -> Date)
         (request : AmountRequest) (w : World) (response : Response),
    (snd (checkInRoute handle doesGuestStayExist getCurrentTime (params request) w)
       = Ok response ->
     response = Forbidden None \/ exists url, response = Created url)
    /\ (snd (recordChargeRoute handle assertion generateId getCurrentTime request w)
          = Ok response ->
        response = NoContent)
    /\ (snd (recordPaymentRoute handle assertion generateId getCurrentTime request w)
          = Ok response ->
        response = NoContent)
    /\ (snd (checkOutRoute handle getCurrentTime (params request) w) = Ok response ->
        response = NoContent \/ exists reason, response = Forbidden (Some reason))
    /\ (snd (getDetailsRoute toWeakETag (params request) w) = Ok response ->
        response = NotFound
        \/ exists d eTag,
             response = OK d eTag
             /\ GuestStayDetails.status d = GuestStayDetails.Status_CheckedIn
             /\ GuestStayDetails._version d = None).
Proof.
  intros handle assertion etag exists_ generateId clock request w response.
  repeat split.
  - unfold checkInRoute, andThen, lift, ret.
    destruct (assertNotEmptyString (guestId (params request))) as [g|]; [|discriminate].
    destruct (assertNotEmptyString (roomId (params request))) as [r|]; [|discriminate].
    destruct (exists_ g r (clock tt)); simpl.
    + destruct (handle w _ _) as [w' [result|e]]; [|discriminate].
      intros H. inversion H. eauto.
    + intros H. inversion H. auto.
  - unfold recordChargeRoute, andThen, lift, ret.
    destruct (parseGuestStayAccountId (params request)) as [accountId|]; [|discriminate].
    destruct (recordChargeCommand _ _ _ _ _) as [command|]; [|discriminate].
    destruct (handle w _ _) as [w' [result|e]]; [|discriminate].
    intros H. inversion H. reflexivity.
  - unfold recordPaymentRoute, andThen, lift, ret.
    destruct (parseGuestStayAccountId (params request)) as [accountId|]; [|discriminate].
    destruct (recordPaymentCommand _ _ _ _ _) as [command|]; [|discriminate].
    destruct (handle w _ _) as [w' [result|e]]; [|discriminate].
    intros H. inversion H. reflexivity.
  - unfold checkOutRoute, andThen, lift, ret.
    destruct (parseGuestStayAccountId (params request)) as [accountId|]; [|discriminate].
    destruct (handle w _ _) as [w' [result|e]]; [|discriminate].
    intros H. inversion H. unfold checkOutResponse.
    destruct (newEvents result) as [|[] rest]; eauto.
  - unfold getDetailsRoute, andThen, lift, getGuestStayDetails.
    destruct (parseGuestStayAccountId (params request)) as [accountId|]; [|discriminate].
    destruct (readStore w !! accountId) as [[|d]|]; simpl;
      try (intros H; inversion H; auto; fail).
    destruct (GuestStayDetails.status d) eqn:Hs; intros H; inversion H; auto.
    right. exists (withoutVersion d), (etag (GuestStayDetails._version d)).
    auto.
Qed.

(** X15: with the lookup [index.ts] wires in, which says every guest
    stay exists, a check-in is never answered Forbidden: whatever the
    handler and the stores, the route throws or answers Created. *)
Theorem wired_check_in_is_never_forbidden :
  forall (handle : World -> string -> Decider -> World * Result HandleResult)
         (getCurrentTime : unit -> Date) (p : Params) (w : World),
    (exists e,
       snd (checkInRoute handle Wiring.doesGuestStayExist getCurrentTime p w)
       = Throw e)
    \/ (exists url,
          snd (checkInRoute handle Wiring.doesGuestStayExist getCurrentTime p w)
          = Ok (Created url)).
Proof.
  intros handle clock p w.
  unfold checkInRoute, andThen, lift, ret, Wiring.doesGuestStayExist.
  destruct (assertNotEmptyString (guestId p)) as [g|]; [|left; eauto].
  destruct (assertNotEmptyString (roomId p)) as [r|]; [|left; eauto].
  simpl. destruct (handle w _ _) as [w' [result|e]]; simpl; eauto.
Qed.

(** X16: with the identifiers [index.ts] generates, the prefix, a dash
    and a UUID, the id of a charge command starts with "charge-", the id
    of a payment command with "payment-", and the two never coincide,
    whatever UUIDs are drawn. *)
Theorem charge_and_payment_ids_differ :
  forall (assertion assertion' : number -> Result number)
         (getCurrentTime getCurrentTime' : unit -> Date)
         (uuid uuid' accountId accountId' : string)
         (request request' : AmountRequest)
         (charge : RecordCharge) (payment : RecordPayment),
    recordChargeCommand assertion (Index.generateId uuid) getCurrentTime
      accountId request = Ok charge ->
    recordPaymentCommand assertion' (Index.generateId uuid') getCurrentTime'
      accountId' request' = Ok payment ->
    chargeIdOf charge = "charge-" +:+ uuid
    /\ paymentIdOf payment = "payment-" +:+ uuid'
    /\ chargeIdOf charge <> paymentIdOf payment.
Proof.
  intros assertion assertion' clock clock' uuid uuid' accountId accountId'
    request request' charge payment Hcharge Hpayment.
  unfold recordChargeCommand, recordPaymentCommand, bind in *.
  destruct (assertion _) as [a|]; [|discriminate].
  destruct (assertion' _) as [a'|]; [|discriminate].
  inversion Hcharge; subst. inversion Hpayment; subst.
  simpl. repeat split. discriminate.
Qed.

Lemma charge_and_payment_ids_differ_witness :
  chargeIdOf (mkRecordCharge "charge-1b4e" Wiring.accountId 50%float Wiring.now)
    = "charge-" +:+ "1b4e"
  /\ paymentIdOf (mkRecordPayment "payment-1b4e" Wiring.accountId 50%float Wiring.now)
     = "payment-" +:+ "1b4e"
  /\ chargeIdOf (mkRecordCharge "charge-1b4e" Wiring.accountId 50%float Wiring.now)
     <> paymentIdOf
          (mkRecordPayment "payment-1b4e" Wiring.accountId 50%float Wiring.now).
Proof.
  apply (charge_and_payment_ids_differ assertPositiveNumber assertPositiveNumber
           Wiring.getCurrentTime Wiring.getCurrentTime "1b4e" "1b4e"
           Wiring.accountId Wiring.accountId
           (Wiring.amountRequest (Some 50%float)) (Wiring.amountRequest (Some 50%float)));
    reflexivity.
Defined.

(** X17: the projection is registered for every event type: the type of
    each event is in [canHandle], [canHandle] lists no type twice, and
    each type it lists is the type of an event [evolve] has a case
    for. *)
Theorem projection_handles_every_event_type :
  (forall event : GuestStayAccountEvent,
     In (Projection.eventType event) Projection.canHandle)
  /\ NoDup Projection.canHandle
  /\ (forall type_,
        In type_ Projection.canHandle ->
        exists event : GuestStayAccountEvent, Projection.eventType event = type_).
Proof.
  split; [|split].
  - intros []; simpl; auto 10.
  - unfold Projection.canHandle.
    apply (bool_decide_unpack (NoDup _)). vm_compute. exact I.
  - intros type_ Hin. simpl in Hin.
    destruct Hin as [<-|[<-|[<-|[<-|[<-|[]]]]]].
    + exists (GuestCheckedIn "" "" "" 0). reflexivity.
    + exists (ChargeRecorded "" 0%float). reflexivity.
    + exists (PaymentRecorded "" 0%float). reflexivity.
    + exists (GuestCheckedOut 0). reflexivity.
    + exists (GuestCheckoutFailed ""). reflexivity.
Qed.

End RouteFacts.

(** ** What the details route shows of a stream *)

Module VisibilityFacts.
Import Emmett GuestStayAccount GuestStayDetails CommandHandling Api Ledger
  StreamVocabulary.

Lemma open_document_stays_open (later : list GuestStayAccountEvent) :
  forall d : CheckedIn,
    status d = Status_CheckedIn ->
    isCheckedIn (project later (Document d)) = negb (existsb isCheckOut later).
Proof.
  unfold project.
  induction later as [|e later IH]; intros d Hs.
  - simpl. now rewrite Hs.
  - destruct (isCheckOut e) eqn:Hout.
    + destruct e; try discriminate Hout.
      cbn [fold_left existsb isCheckOut orb negb].
      rewrite StreamFacts.evolve_check_out by assumption.
      rewrite StreamFacts.project_closed by reflexivity. reflexivity.
    + cbn [fold_left existsb]. rewrite Hout. cbn [orb].
      destruct (isTransaction e) eqn:Htx.
      * destruct (ReadModel.afterTransactions_cons d e [] Hs Htx)
          as (d1 & Hstep & Hs1 & _).
        rewrite Hstep. now apply IH.
      * assert (Hsame : evolve (Document d) e = Document d)
          by (destruct e; try discriminate Htx; try discriminate Hout; reflexivity).
        rewrite Hsame. now apply IH.
Qed.

Lemma projected_status (events : list GuestStayAccountEvent) :
  isCheckedIn (project events initialState) = staysOpen events.
Proof.
  unfold initialState. induction events as [|e events IH]; [reflexivity|].
  destruct (isCheckIn e) eqn:Hin.
  - destruct e as [i g r t| | | |]; try discriminate Hin. cbn [staysOpen isCheckIn].
    change (project (GuestCheckedIn i g r t :: events) NotExisting)
      with (project events (Document (freshDocument i g r t))).
    now apply open_document_stays_open.
  - cbn [staysOpen]. rewrite Hin, <- IH.
    destruct e; try discriminate Hin; reflexivity.
Qed.

Lemma projected_version (events : list GuestStayAccountEvent) (d : CheckedIn) :
  project events initialState = Document d -> _version d = None.
Proof.
  unfold initialState. revert d.
  induction events as [|e events IH]; intros d Hd; [discriminate Hd|].
  destruct (isCheckIn e) eqn:He.
  - destruct e as [i g r t| | | |]; try discriminate He.
    destruct (StreamFacts.project_document_steps events (freshDocument i g r t))
      as (d' & Hd' & _ & _ & _ & _ & Hv & _).
    unfold project in *. simpl in Hd. unfold freshDocument in Hd'.
    rewrite Hd' in Hd. inversion Hd; subst d'. exact Hv.
  - apply IH. unfold project in *. simpl in Hd.
    destruct e; try discriminate He; exact Hd.
Qed.

Lemma withoutVersion_unversioned (d : CheckedIn) :
  _version d = None -> withoutVersion d = d.
Proof.
  destruct d. simpl. intros ->. reflexivity.
Qed.

(** X19: when the document the store holds under the account id is,
    [_version] apart, the projection of the account's stream (nothing
    stored when the stream projects to nothing), the details route
    answers OK exactly when the stream's first check-in is followed by
    no check-out, and NotFound otherwise: before any check-in and from
    the first check-out on; and the body of an OK answer is the
    projection of the stream itself. *)
Theorem details_show_open_stays_only :
  forall (toWeakETag : option Z -> string) (p : Params) (w : World)
         (accountId : string) (events : list GuestStayAccountEvent)
         (stored : GuestStayDetails),
    parseGuestStayAccountId p = Ok accountId ->
    readStore w !! accountId = Some stored ->
    sameUpToVersion stored (project events initialState) ->
    ((exists d eTag, snd (getDetailsRoute toWeakETag p w) = Ok (OK d eTag))
     <-> staysOpen events = true)
    /\ (snd (getDetailsRoute toWeakETag p w) = Ok NotFound
        <-> staysOpen events = false)
    /\ (forall body eTag,
          snd (getDetailsRoute toWeakETag p w) = Ok (OK body eTag) ->
          project events initialState = Document body
          /\ exists d, stored = Document d /\ eTag = toWeakETag (_version d)).
Proof.
  intros etag p w accountId events stored Hid Hstored Hsame.
  rewrite <- projected_status.
  unfold getDetailsRoute, andThen, lift, getGuestStayDetails.
  rewrite Hid, Hstored.
  pose proof (projected_version events) as Hversion.
  destruct stored as [|ds]; destruct (project events initialState) as [|dp];
    simpl in Hsame; try contradiction.
  - simpl. split; [split|split; [split|]]; try reflexivity; try discriminate.
    intros (d & tag & H). discriminate H.
  - assert (Hstatus : status ds = status dp)
      by exact (f_equal status Hsame).
    rewrite (withoutVersion_unversioned dp (Hversion dp eq_refl)) in Hsame.
    simpl. rewrite <- Hstatus.
    destruct (status ds); simpl.
    + split; [split; [reflexivity | eauto]|].
      split; [split; discriminate|].
      intros body tag H. inversion H; subst body tag.
      split; [now rewrite Hsame | eauto].
    + split; [split; [intros (d & tag & H); discriminate H | discriminate]|].
      split; [split; reflexivity|].
      intros body tag H. discriminate H.
Qed.

Lemma details_show_open_stays_only_witness :
  exists (events : list GuestStayAccountEvent) (d : CheckedIn),
    events = default [] (eventStore Wiring.checkedOutWorld !! Wiring.accountId)
    /\ length events = 4%nat
    /\ readStore Wiring.checkedOutWorld !! Wiring.accountId = Some (Document d)
    /\ _version d = Some 4
    /\ sameUpToVersion (Document d) (project events initialState)
    /\ snd (getDetailsRoute Wiring.toWeakETag Wiring.stayParams Wiring.checkedOutWorld)
       = Ok NotFound.
Proof.
  exists (default [] (eventStore Wiring.checkedOutWorld !! Wiring.accountId)).
  eexists.
  split; [reflexivity|]. split; [vm_compute; reflexivity|].
  split; [vm_compute; reflexivity|]. split; [reflexivity|].
  split; [vm_compute; reflexivity|].
  eapply (details_show_open_stays_only Wiring.toWeakETag Wiring.stayParams
            Wiring.checkedOutWorld Wiring.accountId
            (default [] (eventStore Wiring.checkedOutWorld !! Wiring.accountId))).
  - vm_compute. reflexivity.
  - vm_compute. reflexivity.
  - vm_compute. reflexivity.
  - vm_compute. reflexivity.
Defined.

End VisibilityFacts.
